(** * A shallow embedding of the btcmarkets REST client (src/rest_interface.py)

    The development models the authenticated request pipeline of
    [RESTInterface]: key decoding at construction, canonical payload
    construction, HMAC-SHA512 signing, dispatch through an HTTP transport,
    JSON decoding of the answer, and the domain operations built on it.

    Modelling conventions.
    - A Python [bytes] value is a [list Z] whose elements are in 0..255.
    - A Python [str] is a Stdlib [string]; each [ascii] character stands for
      the Unicode code point 0..255 of the same value (the Latin-1 block), so
      [str.encode("utf-8")] is written out for that range.
    - Effects ([time.time()], [urllib.request.urlopen]) are threaded through a
      small state-and-exception monad over a [world] record. *)

From Stdlib Require Import ZArith List String Ascii Bool Lia.
From Stdlib Require Import Numbers.DecimalString Numbers.DecimalZ.
Import ListNotations.
Open Scope Z_scope.

Definition bytes := list Z.

(** ** Primitives of the Python standard library used by the client *)

Module Utf8.

(** [str.encode("utf-8")] on code points 0..255. *)
Definition encode_char (c : ascii) : list Z :=
  let n := Z.of_nat (nat_of_ascii c) in
  if n <? 128 then [n]
  else [Z.lor 192 (Z.shiftr n 6); Z.lor 128 (Z.land n 63)].

Fixpoint encode (s : string) : bytes :=
  match s with
  | EmptyString => []
  | String c s' => encode_char c ++ encode s'
  end.

End Utf8.

(** ** hashlib.sha512 (FIPS 180-4) *)
Module Sha512.

Definition mask64 (x : Z) : Z := Z.land x (2 ^ 64 - 1).
Definition add64 (a b : Z) : Z := (a + b) mod 2 ^ 64.
Definition rotr (x : Z) (n : Z) : Z :=
  Z.lor (Z.shiftr x n) (mask64 (Z.shiftl x (64 - n))).
Definition lnot64 (x : Z) : Z := Z.lxor x (2 ^ 64 - 1).

Definition ch (e f g : Z) : Z := Z.lxor (Z.land e f) (Z.land (lnot64 e) g).
Definition maj (a b c : Z) : Z :=
  Z.lxor (Z.lxor (Z.land a b) (Z.land a c)) (Z.land b c).
Definition bsig0 (x : Z) : Z := Z.lxor (Z.lxor (rotr x 28) (rotr x 34)) (rotr x 39).
Definition bsig1 (x : Z) : Z := Z.lxor (Z.lxor (rotr x 14) (rotr x 18)) (rotr x 41).
Definition ssig0 (x : Z) : Z := Z.lxor (Z.lxor (rotr x 1) (rotr x 8)) (Z.shiftr x 7).
Definition ssig1 (x : Z) : Z := Z.lxor (Z.lxor (rotr x 19) (rotr x 61)) (Z.shiftr x 6).

(** The constants are the first 64 bits of the fractional parts of the
    square roots (initial hash) and cube roots (round constants) of the
    first primes; they are computed here rather than transcribed. *)
Definition is_prime (n : Z) : bool :=
  forallb (fun d => negb (Z.rem n d =? 0))
    (map Z.of_nat (seq 2 (Z.to_nat n - 2))).

Definition first_primes (k : nat) : list Z :=
  firstn k (filter is_prime (map Z.of_nat (seq 2 420))).

Fixpoint icbrt_aux (fuel : nat) (lo hi n : Z) : Z :=
  match fuel with
  | O => lo
  | S f =>
      if hi - lo <=? 1 then lo
      else let m := (lo + hi) / 2 in
           if m * m * m <=? n then icbrt_aux f m hi n else icbrt_aux f lo m n
  end.

Definition icbrt (n : Z) : Z := icbrt_aux 200 0 (2 ^ 70) n.

Definition K : list Z :=
  Eval vm_compute in
  map (fun p => mask64 (icbrt (p * 2 ^ 192))) (first_primes 80).

Definition H0 : list Z :=
  Eval vm_compute in
  map (fun p => mask64 (Z.sqrt (p * 2 ^ 128))) (first_primes 8).

Fixpoint be_bytes (k : nat) (x : Z) : bytes :=
  match k with
  | O => []
  | S k' => be_bytes k' (Z.shiftr x 8) ++ [Z.land x 255]
  end.

Definition word_of (b : bytes) : Z :=
  fold_left (fun acc x => Z.lor (Z.shiftl acc 8) x) b 0.

Fixpoint words (fuel : nat) (b : bytes) : list Z :=
  match fuel with
  | O => []
  | S f =>
      match b with
      | [] => []
      | _ => word_of (firstn 8 b) :: words f (skipn 8 b)
      end
  end.

Fixpoint blocks (fuel : nat) (b : bytes) : list bytes :=
  match fuel with
  | O => []
  | S f =>
      match b with
      | [] => []
      | _ => firstn 128 b :: blocks f (skipn 128 b)
      end
  end.

Definition pad (m : bytes) : bytes :=
  let l := Z.of_nat (List.length m) in
  let k := (111 - l) mod 128 in
  m ++ [128] ++ repeat 0 (Z.to_nat k) ++ be_bytes 16 (l * 8).

(** Message schedule: [w] holds W[t-1], W[t-2], ... (most recent first). *)
Fixpoint schedule_aux (n : nat) (w : list Z) : list Z :=
  match n with
  | O => w
  | S n' =>
      let wt := add64 (add64 (ssig1 (nth 1 w 0)) (nth 6 w 0))
                      (add64 (ssig0 (nth 14 w 0)) (nth 15 w 0)) in
      schedule_aux n' (wt :: w)
  end.

Definition schedule (blk : bytes) : list Z :=
  rev (schedule_aux 64 (rev (words 16 blk))).

Definition round (st : list Z) (kw : Z * Z) : list Z :=
  match st with
  | [a; b; c; d; e; f; g; h] =>
      let t1 := add64 (add64 (add64 h (bsig1 e)) (add64 (ch e f g) (fst kw)))
                      (snd kw) in
      let t2 := add64 (bsig0 a) (maj a b c) in
      [add64 t1 t2; a; b; c; add64 d t1; e; f; g]
  | _ => st
  end.

Definition compress (hv : list Z) (blk : bytes) : list Z :=
  let st := fold_left round (combine K (schedule blk)) hv in
  map (fun p => add64 (fst p) (snd p)) (combine hv st).

Definition digest (m : bytes) : bytes :=
  let p := pad m in
  let hv := fold_left compress (blocks (List.length p) p) H0 in
  flat_map (be_bytes 8) hv.

End Sha512.

(** ** hmac.new(key, msg, hashlib.sha512).digest() (RFC 2104, block 128) *)
Module Hmac.

Definition block_size : nat := 128.

Definition norm_key (key : bytes) : bytes :=
  let k := if Nat.ltb block_size (List.length key) then Sha512.digest key else key in
  k ++ repeat 0 (block_size - List.length k).

Definition sha512 (key msg : bytes) : bytes :=
  let k := norm_key key in
  let ipad := map (Z.lxor 54) k in
  let opad := map (Z.lxor 92) k in
  Sha512.digest (opad ++ Sha512.digest (ipad ++ msg)).

End Hmac.

(** ** Python exceptions raised along the modelled paths *)
Inductive py_exc :=
| HTTPError (code : Z)        (* urllib.error.HTTPError: non-2xx status *)
| URLError                   (* urllib.error.URLError: no answer (DNS, refused, timeout) *)
| JSONDecodeError            (* json.decoder.JSONDecodeError *)
| KeyError                   (* dict lookup of a missing key *)
| TypeError                  (* subscripting or iterating a value that does not support it *)
| BinasciiError              (* binascii.Error raised by base64.b64decode *)
| ValueError.                (* base64.b64decode of a non-ASCII str *)

(** ** base64.b64encode and base64.b64decode (binascii, CPython 3.11) *)
Module Base64.

Definition enc_char (v : Z) : Z :=
  if v <? 26 then 65 + v
  else if v <? 52 then 71 + v
  else if v <? 62 then v - 4
  else if v =? 62 then 43 else 47.

(** [binascii.b2a_base64(b, newline=False)] *)
Fixpoint b64encode (b : bytes) : bytes :=
  match b with
  | x :: y :: z :: r =>
      [enc_char (Z.shiftr x 2);
       enc_char (Z.lor (Z.shiftl (Z.land x 3) 4) (Z.shiftr y 4));
       enc_char (Z.lor (Z.shiftl (Z.land y 15) 2) (Z.shiftr z 6));
       enc_char (Z.land z 63)] ++ b64encode r
  | [x; y] =>
      [enc_char (Z.shiftr x 2);
       enc_char (Z.lor (Z.shiftl (Z.land x 3) 4) (Z.shiftr y 4));
       enc_char (Z.shiftl (Z.land y 15) 2); 61]
  | [x] => [enc_char (Z.shiftr x 2); enc_char (Z.shiftl (Z.land x 3) 4); 61; 61]
  | [] => []
  end.

(** [table_a2b_base64]: 255 marks a byte outside the alphabet. *)
Definition dec_val (c : Z) : Z :=
  if (65 <=? c) && (c <=? 90) then c - 65
  else if (97 <=? c) && (c <=? 122) then c - 71
  else if (48 <=? c) && (c <=? 57) then c + 4
  else if c =? 43 then 62
  else if c =? 47 then 63 else 255.

(** The loop of [binascii.a2b_base64] with [strict_mode=False]: bytes outside
    the alphabet are skipped, a pad sequence completing a quad stops the
    scan, and a dangling partial quad raises [binascii.Error] ([None]). *)
Fixpoint a2b_loop (s : bytes) (quad_pos leftchar pads : Z) (acc : bytes)
  : option bytes :=
  match s with
  | [] => if quad_pos =? 0 then Some (rev acc) else None
  | c :: r =>
      if c =? 61 then
        if 2 <=? quad_pos then
          if 4 <=? quad_pos + (pads + 1) then Some (rev acc)
          else a2b_loop r quad_pos leftchar (pads + 1) acc
        else a2b_loop r quad_pos leftchar pads acc
      else
        let v := dec_val c in
        if 64 <=? v then a2b_loop r quad_pos leftchar pads acc
        else if quad_pos =? 0 then a2b_loop r 1 v 0 acc
        else if quad_pos =? 1 then
          a2b_loop r 2 (Z.land v 15) 0
            (Z.lor (Z.shiftl leftchar 2) (Z.shiftr v 4) :: acc)
        else if quad_pos =? 2 then
          a2b_loop r 3 (Z.land v 3) 0
            (Z.lor (Z.shiftl leftchar 4) (Z.shiftr v 2) :: acc)
        else
          a2b_loop r 0 0 0 (Z.lor (Z.shiftl leftchar 6) v :: acc)
  end.

Definition a2b_base64 (s : bytes) : option bytes := a2b_loop s 0 0 0 [].

Definition code (c : ascii) : Z := Z.of_nat (nat_of_ascii c).

(** [base64.b64decode(s)] for a [str] argument: [s.encode('ascii')] first,
    then [binascii.a2b_base64(s, strict_mode=False)]. *)
Definition b64decode (s : string) : py_exc + bytes :=
  let cs := map code (list_ascii_of_string s) in
  if existsb (fun c => 128 <=? c) cs then inl ValueError
  else match a2b_base64 cs with
       | None => inl BinasciiError
       | Some b => inr b
       end.

End Base64.

(** ** Python's str() of an int and repr() of a list of ints *)
Definition py_str_int (z : Z) : string := NilEmpty.string_of_int (Z.to_int z).

Definition py_repr_int_list (l : list Z) : string :=
  ("[" ++ String.concat ", " (map py_str_int l) ++ "]")%string.

(** ** json.loads (CPython's json.decoder / json.scanner, strict mode)

    Numbers without fraction or exponent decode to Python ints ([JInt]);
    the others, [NaN] and [Infinity], to floats, kept as their literal text
    ([JFloat]) since no float arithmetic is done on them.  A JSON object
    keeps its members in source order; a Python dict built from it maps a
    repeated key to its last value (see [lookup]).  A [\uXXXX] escape above
    0xFF lies outside the modelled code points and is rejected. *)
#[local] Set Warnings "-register-all".
Module Json.

Inductive json :=
| JNull
| JBool (b : bool)
| JInt (z : Z)
| JFloat (literal : string)
| JStr (s : string)
| JArr (l : list json)
| JObj (members : list (string * json)).

Local Open Scope char_scope.
Local Open Scope Z_scope.

Definition code (c : ascii) : Z := Z.of_nat (nat_of_ascii c).

Definition is_ws (c : ascii) : bool :=
  match c with " " | "009" | "010" | "013" => true | _ => false end.

Fixpoint skip_ws (s : list ascii) : list ascii :=
  match s with
  | c :: r => if is_ws c then skip_ws r else s
  | [] => []
  end.

Definition is_digit (c : ascii) : bool := (48 <=? code c) && (code c <=? 57).

Fixpoint span_digits (s : list ascii) : list ascii * list ascii :=
  match s with
  | c :: r => if is_digit c then let (d, r') := span_digits r in (c :: d, r')
              else ([], s)
  | [] => ([], [])
  end.

Definition digits_value (d : list ascii) : Z :=
  fold_left (fun acc c => acc * 10 + (code c - 48)) d 0.

Definition hex_val (c : ascii) : option Z :=
  let n := code c in
  if (48 <=? n) && (n <=? 57) then Some (n - 48)
  else if (97 <=? n) && (n <=? 102) then Some (n - 87)
  else if (65 <=? n) && (n <=? 70) then Some (n - 55)
  else None.

(** [py_scanstring], positioned after the opening quote. *)
Fixpoint scan_string (s : list ascii) : option (list ascii * list ascii) :=
  match s with
  | [] => None
  | "034" :: r => Some ([], r)
  | "\" :: e :: r =>
      let k := fun (c : ascii) =>
        match scan_string r with
        | Some (t, r') => Some (c :: t, r')
        | None => None
        end in
      match e with
      | "034" => k "034"
      | "\" => k "\"
      | "/" => k "/"
      | "b" => k "008"
      | "f" => k "012"
      | "n" => k "010"
      | "r" => k "013"
      | "t" => k "009"
      | "u" =>
          match r with
          | h1 :: h2 :: h3 :: h4 :: r' =>
              match hex_val h1, hex_val h2, hex_val h3, hex_val h4 with
              | Some a, Some b, Some c, Some d =>
                  let u := ((a * 16 + b) * 16 + c) * 16 + d in
                  if u <=? 255 then
                    match scan_string r' with
                    | Some (t, r'') => Some (ascii_of_nat (Z.to_nat u) :: t, r'')
                    | None => None
                    end
                  else None
              | _, _, _, _ => None
              end
          | _ => None
          end
      | _ => None
      end
  | c :: r =>
      if code c <? 32 then None
      else match scan_string r with
           | Some (t, r') => Some (c :: t, r')
           | None => None
           end
  end.

(** [NUMBER_RE]: an optional minus sign, then 0 or a nonzero digit followed by
    digits, then an optional fraction (a dot and one or more digits), then an
    optional exponent (e or E, an optional sign, one or more digits). *)
Definition match_number (s : list ascii)
  : option (list ascii * list ascii * list ascii * list ascii) :=
  let '(sg, s1) := match s with "-" :: r => (["-"], r) | _ => ([], s) end in
  let ip := match s1 with
            | "0" :: r => Some (["0"], r)
            | c :: r => if is_digit c then let (d, r') := span_digits r in
                                          Some (c :: d, r')
                        else None
            | [] => None
            end in
  match ip with
  | None => None
  | Some (ids, s2) =>
      let '(frac, s3) :=
        match s2 with
        | "." :: c :: r =>
            if is_digit c then let (d, r') := span_digits r in ("." :: c :: d, r')
            else ([], s2)
        | _ => ([], s2)
        end in
      let exp_of (e : ascii) (r : list ascii) :=
        let '(sgn, r1) := match r with
                          | "+" :: r1 => (["+"], r1)
                          | "-" :: r1 => (["-"], r1)
                          | _ => ([], r) end in
        match r1 with
        | c :: r2 => if is_digit c then let (d, r') := span_digits r2 in
                                      ((e :: sgn) ++ c :: d, r')
                     else ([], s3)
        | [] => ([], s3)
        end in
      let '(ex, s4) :=
        match s3 with
        | "e" :: r => exp_of "e" r
        | "E" :: r => exp_of "E" r
        | _ => ([], s3)
        end in
      Some (sg ++ ids, frac, ex, s4)
  end%list.

Fixpoint prefix (p s : list ascii) : option (list ascii) :=
  match p, s with
  | [], _ => Some s
  | c :: p', d :: s' => if Ascii.eqb c d then prefix p' s' else None
  | _ :: _, [] => None
  end.

(** [scan_once], [JSONArray] and [JSONObject]; [fuel] bounds the nesting. *)
Fixpoint scan_once (fuel : nat) (s : list ascii) : option (json * list ascii) :=
  match fuel with
  | O => None
  | S f =>
      match s with
      | "034" :: r =>
          match scan_string r with
          | Some (t, r') => Some (JStr (string_of_list_ascii t), r')
          | None => None
          end
      | "{" :: r =>
          match skip_ws r with
          | "}" :: r' => Some (JObj [], r')
          | "034" :: r' => parse_members f r' []
          | _ => None
          end
      | "[" :: r =>
          match skip_ws r with
          | "]" :: r' => Some (JArr [], r')
          | r' => parse_elems f r' []
          end
      | _ =>
          match prefix (list_ascii_of_string "null") s with
          | Some r => Some (JNull, r) | None =>
          match prefix (list_ascii_of_string "true") s with
          | Some r => Some (JBool true, r) | None =>
          match prefix (list_ascii_of_string "false") s with
          | Some r => Some (JBool false, r) | None =>
          match match_number s with
          | Some (ip, [], [], r) =>
              Some (JInt (match ip with
                          | "-" :: d => - digits_value d
                          | d => digits_value d end), r)
          | Some (ip, fr, ex, r) =>
              Some (JFloat (string_of_list_ascii (ip ++ fr ++ ex)), r)
          | None =>
          match prefix (list_ascii_of_string "NaN") s with
          | Some r => Some (JFloat "NaN", r) | None =>
          match prefix (list_ascii_of_string "Infinity") s with
          | Some r => Some (JFloat "Infinity", r) | None =>
          match prefix (list_ascii_of_string "-Infinity") s with
          | Some r => Some (JFloat "-Infinity", r)
          | None => None
          end end end end end end end
      end
  end%list
with parse_elems (fuel : nat) (s : list ascii) (acc : list json)
  : option (json * list ascii) :=
  match fuel with
  | O => None
  | S f =>
      match scan_once f s with
      | None => None
      | Some (v, r) =>
          match skip_ws r with
          | "]" :: r' => Some (JArr (rev (v :: acc)), r')
          | "," :: r' => parse_elems f (skip_ws r') (v :: acc)
          | _ => None
          end
      end
  end
with parse_members (fuel : nat) (s : list ascii) (acc : list (string * json))
  : option (json * list ascii) :=
  match fuel with
  | O => None
  | S f =>
      match scan_string s with
      | None => None
      | Some (k, r) =>
          match skip_ws r with
          | ":" :: r1 =>
              match scan_once f (skip_ws r1) with
              | None => None
              | Some (v, r2) =>
                  let acc' := (string_of_list_ascii k, v) :: acc in
                  match skip_ws r2 with
                  | "}" :: r3 => Some (JObj (rev acc'), r3)
                  | "," :: r3 =>
                      match skip_ws r3 with
                      | "034" :: r4 => parse_members f r4 acc'
                      | _ => None
                      end
                  | _ => None
                  end
              end
          | _ => None
          end
      end
  end.

(** [json.loads(s)]: leading and trailing whitespace allowed, no extra data. *)
Definition loads (s : string) : option json :=
  let cs := list_ascii_of_string s in
  match scan_once (S (List.length cs)) (skip_ws cs) with
  | Some (v, r) => match skip_ws r with [] => Some v | _ => None end
  | None => None
  end.

(** [d[key]] on a dict decoded from a JSON object: the last binding wins. *)
Definition lookup (members : list (string * json)) (key : string) : option json :=
  fold_left (fun acc kv => if String.eqb (fst kv) key then Some (snd kv) else acc)
    members None.

End Json.
Import Json.


(** ** String literals

    Python literals of the source that contain double quotes are written
    here with single quotes and passed through [dquote], which turns every
    single quote into a double quote; [nl] is the newline character. *)
Definition dq_char : ascii := "034"%char.
Definition nl : string := String "010"%char EmptyString.

Fixpoint dquote (s : string) : string :=
  match s with
  | EmptyString => EmptyString
  | String c r =>
      String (if Ascii.eqb c "'"%char then dq_char else c) (dquote r)
  end.

(** ** The environment: wall clock and HTTP transport *)

(** A header value as urllib receives it: the source passes a [str] for
    [apikey], an [int] for [timestamp] and a [bytes] for [signature]. *)
Inductive hval := HStr (s : string) | HInt (z : Z) | HBytes (b : bytes).

(** [urllib.request.Request(url, data=data, headers=header)] *)
Record http_request := {
  req_url : string;
  req_data : option bytes;
  req_headers : list (string * hval)
}.

(** [Request.get_method]: POST when data is given, GET otherwise. *)
Definition get_method (r : http_request) : string :=
  match req_data r with Some _ => "POST" | None => "GET" end%string.

(** What the transport does with one request: an HTTP answer (status and
    decoded body text), or a failure to connect. *)
Inductive net_reply := Reply (status : Z) (text : string) | NoReply.

(** [clock n] is the value of [int(time.time() * 1000)] at the [n]-th read;
    [net k r] is the transport's reply to [r] when [k] requests were sent
    before it (so a mock may change its answers over time). *)
Record world := {
  clock : nat -> Z;
  reads : nat;
  net : nat -> http_request -> net_reply;
  sent : list http_request
}.

(** ** The state-and-exception monad *)
Definition M (A : Type) : Type := world -> (py_exc + A) * world.

Definition ret {A} (a : A) : M A := fun w => (inr a, w).

Definition bind {A B} (m : M A) (k : A -> M B) : M B :=
  fun w => match m w with
           | (inl e, w') => (inl e, w')
           | (inr a, w') => k a w'
           end.

Definition raise {A} (e : py_exc) : M A := fun w => (inl e, w).

Notation "x <- m ;; k" := (bind m (fun x => k))
  (at level 61, m at next level, right associativity).

(** [int(time.time() * 1000)] *)
Definition time_ms : M Z :=
  fun w => (inr (clock w (reads w)),
            {| clock := clock w; reads := S (reads w); net := net w; sent := sent w |}).

(** [urllib.request.urlopen(req)]: the request is sent (recorded in [sent]);
    a status outside 200..299 raises [HTTPError], a failure to connect
    raises [URLError].  urllib's following of redirects (301, 302, 303,
    307, 308 with a Location header) is not modelled, nor are errors of
    the response phase that urllib does not wrap; properties about the
    answer are stated for 2xx statuses and statuses of 400 and above. *)
Definition urlopen (r : http_request) : M string :=
  fun w =>
    let w' := {| clock := clock w; reads := reads w; net := net w;
                 sent := sent w ++ [r] |} in
    match net w (List.length (sent w)) r with
    | NoReply => (inl URLError, w')
    | Reply st txt =>
        if (200 <=? st) && (st <? 300) then (inr txt, w') else (inl (HTTPError st), w')
    end.

(** [json.load(response)] *)
Definition json_load (txt : string) : M json :=
  match Json.loads txt with
  | Some v => ret v
  | None => raise JSONDecodeError
  end.

(** ** Python operations on decoded JSON values *)

(** [v[key]] with a [str] key. *)
Definition getitem (v : json) (key : string) : M json :=
  match v with
  | JObj m => match Json.lookup m key with
              | Some x => ret x
              | None => raise KeyError
              end
  | _ => raise TypeError
  end.

(** [v == s] for a [str] [s]. *)
Definition py_eq_str (v : json) (s : string) : bool :=
  match v with JStr t => String.eqb t s | _ => false end.

Fixpoint dedup_keys (seen : list string) (m : list (string * json)) : list string :=
  match m with
  | [] => []
  | (k, _) :: r => if existsb (String.eqb k) seen then dedup_keys seen r
                   else k :: dedup_keys (k :: seen) r
  end.

(** [for b in v]: a list yields its items, a dict its (distinct) keys, a str
    its characters; other values are not iterable. *)
Definition py_iter (v : json) : M (list json) :=
  match v with
  | JArr l => ret l
  | JObj m => ret (map JStr (dedup_keys [] m))
  | JStr s => ret (map (fun c => JStr (String c EmptyString)) (list_ascii_of_string s))
  | _ => raise TypeError
  end.

(** [[e(b) for b in items if cond(b)]], with [f b] returning [None] when the
    condition is false and [Some (e b)] otherwise, evaluated left to right. *)
Fixpoint comprehension (f : json -> M (option json)) (items : list json)
  : M (list json) :=
  match items with
  | [] => ret []
  | b :: r =>
      o <- f b ;;
      rest <- comprehension f r ;;
      ret (match o with Some v => v :: rest | None => rest end)
  end.

(** ** class RESTInterface (src/rest_interface.py) *)

(** The attributes set by [__init__]. *)
Record client := { key : string; secret : bytes }.

(** [RESTInterface.__init__(public_key, private_key)] *)
Definition init (public_key private_key : string) : py_exc + client :=
  match Base64.b64decode private_key with
  | inl e => inl e
  | inr s => inr {| key := public_key; secret := s |}
  end.

Section RESTInterface.

(** [config.api_url], imported by the module. *)
Variable api_url : string.

Local Open Scope string_scope.

(** Lines 46-49 of [request]: the message to sign. *)
Definition payload_of (path : string) (timestamp : Z) (data : option string) : string :=
  let payload := path ++ nl ++ py_str_int timestamp ++ nl in
  match data with
  | Some d => payload ++ d
  | None => payload
  end.

(** Lines 50-51 of [request]. *)
Definition signature_of (sec : bytes) (path : string) (timestamp : Z)
    (data : option string) : bytes :=
  Base64.b64encode (Hmac.sha512 sec (Utf8.encode (payload_of path timestamp data))).

Definition header_of (c : client) (timestamp : Z) (signature : bytes)
  : list (string * hval) :=
  [("Accept", HStr "application/json");
   ("Accept-Charset", HStr "UTF-8");
   ("Content-Type", HStr "application/json");
   ("apikey", HStr (key c));
   ("timestamp", HInt timestamp);
   ("signature", HBytes signature)]%list.

(** Lines 50-61 of [request]: the request built for a given timestamp. *)
Definition request_of (c : client) (path : string) (data : option string)
    (timestamp : Z) : http_request :=
  let signature := signature_of (secret c) path timestamp data in
  let header := header_of c timestamp signature in
  {| req_url := api_url ++ path;
     req_data := option_map Utf8.encode data;
     req_headers := header |}.

(** [RESTInterface.request(path, data)] *)
Definition request (c : client) (path : string) (data : option string) : M json :=
  timestamp <- time_ms ;;
  txt <- urlopen (request_of c path data timestamp) ;;
  json_load txt.

Definition balances (c : client) : M json := request c "/account/balance" None.

(** One step of the comprehension [[b['balance'] for b in ... if
    b['currency'] == currency]]. *)
Definition balance_item (currency : string) (b : json) : M (option json) :=
  cur <- getitem b "currency" ;;
  if py_eq_str cur currency
  then v <- getitem b "balance" ;; ret (Some v)
  else ret None.

(** [RESTInterface.balance(currency)] *)
Definition balance (c : client) (currency : string) : M json :=
  bs <- balances c ;;
  items <- py_iter bs ;;
  bal <- comprehension (balance_item currency) items ;;
  match bal with
  | [] => ret (JInt 0)
  | v :: _ => ret v
  end.

Definition fee (c : client) (instrument currency : string) : M json :=
  request c ("/account/" ++ instrument ++ "/" ++ currency ++ "/tradingfee") None.

Definition market_tick (c : client) (instrument currency : string) : M json :=
  request c ("/market/" ++ instrument ++ "/" ++ currency ++ "/tick") None.

Definition market_orderbook (c : client) (instrument currency : string) : M json :=
  request c ("/market/" ++ instrument ++ "/" ++ currency ++ "/orderbook") None.

Definition market_trades (c : client) (instrument currency : string)
    (since_id : option Z) : M json :=
  let since := match since_id with
               | None => ""
               | Some i => "?since=" ++ py_str_int i
               end in
  request c ("/market/" ++ instrument ++ "/" ++ currency ++ "/trades" ++ since) None.

(** The f-string of lines 146-148. *)
Definition create_order_data (instrument currency : string) (price volume : Z)
    (order_side order_type : string) : string :=
  dquote "{'currency':'" ++ currency ++ dquote "','instrument':'" ++ instrument
  ++ dquote "'," ++ dquote "'price':" ++ py_str_int price
  ++ dquote ",'volume':" ++ py_str_int volume
  ++ dquote ",'orderSide':'" ++ order_side ++ dquote "',"
  ++ dquote "'ordertype':'" ++ order_type ++ dquote "','clientRequestId':'NA'}".

Definition create_order (c : client) (instrument currency : string)
    (price volume : Z) (order_side order_type : string) : M json :=
  request c "/order/create"
    (Some (create_order_data instrument currency price volume order_side order_type)).

Definition market_bid (c : client) (instrument currency : string) (volume : Z) :=
  create_order c instrument currency 0 volume "Bid" "Market".
Definition market_ask (c : client) (instrument currency : string) (volume : Z) :=
  create_order c instrument currency 0 volume "Ask" "Market".
Definition limit_bid (c : client) (instrument currency : string) (price volume : Z) :=
  create_order c instrument currency price volume "Bid" "Limit".
Definition limit_ask (c : client) (instrument currency : string) (price volume : Z) :=
  create_order c instrument currency price volume "Ask" "Limit".

Definition cancel_order_data (order_ids : list Z) : string :=
  dquote "{'orderIds':" ++ py_repr_int_list order_ids ++ "}".

Definition cancel_order (c : client) (order_ids : list Z) : M json :=
  request c "/order/cancel" (Some (cancel_order_data order_ids)).

Definition withdraw_crypto_data (amount : Z) (address currency : string) : string :=
  dquote "{'amount':" ++ py_str_int amount ++ dquote ",'address':'" ++ address
  ++ dquote "','currency':'" ++ currency ++ dquote "'}".

Definition withdraw_crypto (c : client) (amount : Z) (address currency : string)
  : M json :=
  request c "/fundtransfer/withdrawCrypto"
    (Some (withdraw_crypto_data amount address currency)).

Definition transfer_history (c : client) : M json :=
  request c "/fundtransfer/history" None.

Definition best_ask (c : client) (instrument currency : string) : M json :=
  t <- market_tick c instrument currency ;; getitem t "bestAsk".

Definition best_bid (c : client) (instrument currency : string) : M json :=
  t <- market_tick c instrument currency ;; getitem t "bestBid".

Definition order_detail (c : client) (order_ids : list Z) : M json :=
  request c "/order/detail" (Some (dquote "{'orderIds':" ++ py_repr_int_list order_ids ++ "}")).

(** The f-string shared by [order_history], [order_open_history] and
    [order_trade_history]. *)
Definition order_history_data (instrument currency : string) (limit since_id : Z)
  : string :=
  dquote "{'currency':'" ++ currency ++ dquote "','instrument':'" ++ instrument
  ++ dquote "'," ++ dquote "'limit':" ++ py_str_int limit
  ++ dquote ",'since':" ++ py_str_int since_id ++ "}".

Definition order_history (c : client) (instrument currency : string)
    (limit since_id : Z) : M json :=
  request c "/order/history" (Some (order_history_data instrument currency limit since_id)).

Definition order_open_history (c : client) (instrument currency : string)
    (limit since_id : Z) : M json :=
  request c "/order/open" (Some (order_history_data instrument currency limit since_id)).

Definition order_trade_history (c : client) (instrument currency : string)
    (limit since_id : Z) : M json :=
  request c "/order/trade/history"
    (Some (order_history_data instrument currency limit since_id)).

Definition withdraw_eft_data (account_name account_number bank_name bsb_number : string)
    (amount : Z) (currency : string) : string :=
  dquote "{'accountName':'" ++ account_name ++ dquote "','accountNumber':'"
  ++ account_number ++ dquote "',"
  ++ dquote "'bankName':'" ++ bank_name ++ dquote "','bsbNumber':'" ++ bsb_number
  ++ dquote "',"
  ++ dquote "'amount':" ++ py_str_int amount ++ dquote ",'currency':'" ++ currency
  ++ dquote "'}".

Definition withdraw_eft (c : client)
    (account_name account_number bank_name bsb_number : string) (amount : Z)
    (currency : string) : M json :=
  request c "/fundtransfer/withdrawEFT"
    (Some (withdraw_eft_data account_name account_number bank_name bsb_number
             amount currency)).

End RESTInterface.

(** [raise] the construction error, if any, of [RESTInterface(...)]. *)
Definition construct (r : py_exc + client) : M client :=
  match r with inl e => raise e | inr c => ret c end.

(** ** The older client (src/interface.py)

    Its [request] differs from the one above in one point: [data] is passed
    to [urllib.request.Request] as a [str].  urllib's
    [AbstractHTTPHandler.do_request_] raises [TypeError] for [str] data
    before anything is sent, so with data the call reads the clock and
    raises. *)
Module Interface.
Section Interface.

Variable api_url : string.

Local Open Scope string_scope.

Definition request (c : client) (path : string) (data : option string) : M json :=
  timestamp <- time_ms ;;
  match data with
  | Some _ => raise TypeError
  | None => txt <- urlopen (request_of api_url c path None timestamp) ;; json_load txt
  end.

Definition balance (c : client) : M json := request c "/account/balance" None.

Definition fee (c : client) (instrument currency : string) : M json :=
  request c ("/account/" ++ instrument ++ "/" ++ currency ++ "/tradingfee") None.

Definition market_tick (c : client) (instrument currency : string) : M json :=
  request c ("/market/" ++ instrument ++ "/" ++ currency ++ "/tick") None.

Definition market_orderbook (c : client) (instrument currency : string) : M json :=
  request c ("/market/" ++ instrument ++ "/" ++ currency ++ "/orderbook") None.

Definition market_trades (c : client) (instrument currency : string)
    (since_id : option Z) : M json :=
  let since := match since_id with
               | None => ""
               | Some i => "?since=" ++ py_str_int i
               end in
  request c ("/market/" ++ instrument ++ "/" ++ currency ++ "/trades" ++ since) None.

(** The method has only a docstring: it returns [None] ([JNull]). *)
Definition create_order (c : client) (instrument currency : string)
    (price volume : Z) (orderside ordertype : string) : M json :=
  ret JNull.

(** Lines 102-103, run at import: [RESTInterface(public_key, private_key)]
    then [interface.fee("BTC", "AUD")]. *)
Definition main (public_key private_key : string) : M json :=
  c <- construct (init public_key private_key) ;;
  fee c "BTC" "AUD".

End Interface.
End Interface.

(** ** src/run.py: [RESTInterface(public_key, private_key).balances()] *)
Definition run_main (api_url public_key private_key : string) : M json :=
  c <- construct (init public_key private_key) ;;
  balances api_url c.

(** ** Specification-side notions used to state the properties *)

(** RFC 4648 base64 text: a multiple of four characters of the alphabet,
    ending in at most two pad characters. *)
Definition rfc4648_valid (s : string) : bool :=
  let cs := map Base64.code (list_ascii_of_string s) in
  let body := match rev cs with
              | 61 :: 61 :: r => r
              | 61 :: r => r
              | r => r
              end in
  (Nat.modulo (List.length cs) 4 =? 0)%nat
  && forallb (fun c => Base64.dec_val c <? 64) body.

(** The inverse of [Utf8.encode] on the modelled code points. *)
Fixpoint utf8_decode (b : bytes) : string :=
  match b with
  | [] => EmptyString
  | x :: r =>
      if x <? 128 then String (ascii_of_nat (Z.to_nat x)) (utf8_decode r)
      else match r with
           | y :: r' =>
               String (ascii_of_nat (Z.to_nat ((x - 192) * 64 + (y - 128))))
                      (utf8_decode r')
           | [] => EmptyString
           end
  end.

(** The string contains a newline character. *)
Fixpoint has_nl (s : string) : bool :=
  match s with
  | EmptyString => false
  | String c r => Ascii.eqb c "010"%char || has_nl r
  end.

Definition body_or_empty (data : option string) : string :=
  match data with Some d => d | None => EmptyString end.

(** A [balances()] entry of the documented shape: a dict with a
    ['currency'] key, and a ['balance'] key when it is of the queried
    currency. *)
Definition entry_ok (currency : string) (b : json) : Prop :=
  exists m cur, b = JObj m /\ Json.lookup m "currency"%string = Some cur
                /\ (py_eq_str cur currency = true ->
                    exists v, Json.lookup m "balance"%string = Some v).

(** The entry is of the queried currency. *)
Definition entry_matches (currency : string) (b : json) : Prop :=
  exists m cur, b = JObj m /\ Json.lookup m "currency"%string = Some cur
                /\ py_eq_str cur currency = true.

Definition entry_balance (b : json) (v : json) : Prop :=
  exists m, b = JObj m /\ Json.lookup m "balance"%string = Some v.

(** A world whose transport answers every request with [status]. *)
Definition always_status (w : world) (status : Z) : Prop :=
  exists txt, forall k r, net w k r = Reply status txt.

(** A Python [bytes] element. *)
Definition is_byte (x : Z) : Prop := 0 <= x < 256.

(** A base64 sextet. *)
Definition sextet (v : Z) : bool := (0 <=? v) && (v <? 64).

(** The [str] of an ASCII [bytes] value: [b.decode('ascii')]. *)
Definition ascii_str (b : bytes) : string :=
  string_of_list_ascii (map (fun z => ascii_of_nat (Z.to_nat z)) b).

(** A character that stands for itself inside a JSON string literal: not a
    double quote, not a backslash, not a control character. *)
Definition json_plain_char (c : ascii) : bool :=
  negb (Ascii.eqb c "034"%char) && negb (Ascii.eqb c "\"%char) && (32 <=? Json.code c).

Definition json_plain (s : string) : bool := forallb json_plain_char (list_ascii_of_string s).

(** One step of [Json.digits_value]. *)
Definition dstep (acc : Z) (c : ascii) : Z := acc * 10 + (Json.code c - 48).

(** The JSON text of an int or of a plain string, as the f-strings of the
    source produce it. *)
Definition render_value (v : json) : string :=
  match v with
  | JInt z => py_str_int z
  | JStr s => String dq_char (s ++ String dq_char EmptyString)
  | _ => EmptyString
  end.

Definition simple_value (v : json) : bool :=
  match v with JInt _ => true | JStr s => json_plain s | _ => false end.

Definition simple_member (kv : string * json) : bool :=
  json_plain (fst kv) && simple_value (snd kv).

(** The members [k:v,...] of a JSON object and its closing brace, after the
    opening quote of the first key. *)
Fixpoint render_members (k : string) (v : json) (ms : list (string * json)) : string :=
  k ++ String dq_char (String ":" (render_value v ++
    match ms with
    | [] => "}"
    | (k', v') :: ms' => String "," (String dq_char (render_members k' v' ms'))
    end))%string.

(** [m] run in [w] sends exactly one request: a GET of [api ++ path]
    without body, signed over [path] and the clock reading. *)
Definition sends_get (api : string) (c : client) (m : M json) (w : world)
    (path : string) : Prop :=
  exists r, sent (snd (m w)) = sent w ++ [r]
    /\ get_method r = "GET"%string
    /\ req_url r = (api ++ path)%string
    /\ req_data r = None
    /\ In ("signature"%string,
           HBytes (signature_of (secret c) path (clock w (reads w)) None))
          (req_headers r).

(** [m] run in [w] sends exactly one request: a POST to [api ++ path]
    whose body is the UTF-8 encoding of a text [d] that [json.loads]
    decodes to [v], signed over [path], the clock reading and [d]. *)
Definition sends_post (api : string) (c : client) (m : M json) (w : world)
    (path : string) (v : json) : Prop :=
  exists d r, sent (snd (m w)) = sent w ++ [r]
    /\ get_method r = "POST"%string
    /\ req_url r = (api ++ path)%string
    /\ req_data r = Some (Utf8.encode d)
    /\ In ("signature"%string,
           HBytes (signature_of (secret c) path (clock w (reads w)) (Some d)))
          (req_headers r)
    /\ Json.loads d = Some v.

(** The decoded body of [create_order]. *)
Definition order_fields (instrument currency : string) (price volume : Z)
    (order_side order_type : string) : json :=
  JObj [("currency"%string, JStr currency); ("instrument"%string, JStr instrument);
        ("price"%string, JInt price); ("volume"%string, JInt volume);
        ("orderSide"%string, JStr order_side); ("ordertype"%string, JStr order_type);
        ("clientRequestId"%string, JStr "NA"%string)].

(** The decoded body of the three order history requests. *)
Definition history_fields (instrument currency : string) (limit since_id : Z) : json :=
  JObj [("currency"%string, JStr currency); ("instrument"%string, JStr instrument);
        ("limit"%string, JInt limit); ("since"%string, JInt since_id)].

(** ** Concrete inputs used by the witnesses and counterexamples *)

Definition demo_api : string := "https://api.btcmarkets.net".
Definition demo_client : client := {| key := "pk"%string; secret := [65; 66; 67] |}.

(** A world whose clock always reads [ts] and whose transport answers every
    request with [status] and [txt]. *)
Definition demo_world (ts status : Z) (txt : string) : world :=
  {| clock := fun _ => ts; reads := 0; net := fun _ _ => Reply status txt;
     sent := [] |}.

Definition entry (cur : string) (bal : Z) : json :=
  JObj [("currency"%string, JStr cur); ("balance"%string, JInt bal);
        ("pendingFunds"%string, JInt 0)].

Definition entry_text (cur : string) (bal : Z) : string :=
  (dquote "{'currency':'" ++ cur ++ dquote "','balance':" ++ py_str_int bal
   ++ dquote ",'pendingFunds':0}")%string.

(** ** Tests *)

(** Test vectors, checked against CPython's hashlib and hmac. *)
Example sha512_abc :
  Sha512.digest [97; 98; 99] =
  [221; 175; 53; 161; 147; 97; 122; 186; 204; 65; 115; 73; 174; 32; 65; 49;
   18; 230; 250; 78; 137; 169; 126; 162; 10; 158; 238; 230; 75; 85; 211; 154;
   33; 146; 153; 42; 39; 79; 193; 168; 54; 186; 60; 35; 163; 254; 235; 189;
   69; 77; 68; 35; 100; 60; 232; 14; 42; 154; 201; 79; 165; 76; 164; 159].
Proof. vm_compute. reflexivity. Qed.

Example sha512_two_blocks :
  Sha512.digest (repeat 97 200) =
  [75; 17; 69; 156; 51; 245; 42; 34; 238; 130; 54; 120; 39; 20; 193; 80;
   163; 178; 198; 9; 148; 233; 172; 238; 23; 254; 104; 148; 122; 62; 103; 137;
   243; 30; 118; 104; 57; 69; 146; 218; 123; 239; 130; 124; 221; 202; 136; 196;
   230; 248; 110; 77; 247; 237; 26; 230; 203; 167; 31; 62; 152; 250; 238; 159].
Proof. vm_compute. reflexivity. Qed.

Example hmac_sha512_key_msg :
  Hmac.sha512 [107; 101; 121] [109; 115; 103] =
  [30; 75; 85; 185; 37; 204; 194; 142; 217; 13; 157; 24; 252; 35; 147; 252;
   190; 22; 76; 13; 132; 230; 126; 23; 60; 197; 170; 72; 107; 122; 252; 16;
   102; 51; 198; 107; 220; 48; 144; 118; 245; 248; 217; 253; 187; 182; 36; 86;
   248; 148; 242; 194; 51; 119; 251; 204; 18; 244; 171; 41; 64; 235; 109; 112].
Proof. vm_compute. reflexivity. Qed.

Example b64encode_hmac_key_msg :
  Base64.b64encode (Hmac.sha512 [107; 101; 121] [109; 115; 103]) =
  map Base64.code (list_ascii_of_string
    "HktVuSXMwo7ZDZ0Y/COT/L4WTA2E5n4XPMWqSGt6/BBmM8Zr3DCQdvX42f27tiRW+JTywjN3+8wS9KspQOttcA==").
Proof. vm_compute. reflexivity. Qed.

Example py_str_int_ex : py_str_int 5000000000 = "5000000000"%string
  /\ py_str_int (-7) = "-7"%string /\ py_str_int 0 = "0"%string.
Proof. repeat split; reflexivity. Qed.

Example py_repr_int_list_ex :
  py_repr_int_list [] = "[]"%string /\ py_repr_int_list [1; 23] = "[1, 23]"%string.
Proof. split; reflexivity. Qed.

Example b64decode_ex :
  Base64.b64encode [65; 66; 67] = [81; 85; 74; 68]
  /\ Base64.b64decode "QUJD"%string = inr [65; 66; 67]
  /\ Base64.b64decode "QUJD!"%string = inr [65; 66; 67]
  /\ Base64.b64decode "abc"%string = inl BinasciiError
  /\ Base64.b64decode "QQ=="%string = inr [65]
  /\ Base64.b64decode "QQ="%string = inl BinasciiError
  /\ Base64.b64decode "QUI=QUJD"%string = inr [65; 66]
  /\ Base64.b64decode "QUJD====x"%string = inl BinasciiError.
Proof. repeat split; reflexivity. Qed.

Example loads_ex :
  Json.loads (dquote " {'a': [1, -2.5e3, 'x\'y'], 'b': null} ") =
    Some (JObj [("a"%string, JArr [JInt 1; JFloat "-2.5e3"%string;
                                   JStr (dquote "x'y")]);
                ("b"%string, JNull)])
  /\ Json.loads "[1,]"%string = None
  /\ Json.loads (dquote "{'a':1,}") = None
  /\ Json.loads "01"%string = None
  /\ Json.loads (dquote "{'orderIds':[]}") = Some (JObj [("orderIds"%string, JArr [])]).
Proof. repeat split; reflexivity. Qed.

Example create_order_data_ex :
  create_order_data "BTC" "AUD" 5000000000 50000000 "Bid" "Limit" =
  dquote "{'currency':'AUD','instrument':'BTC','price':5000000000,'volume':50000000,'orderSide':'Bid','ordertype':'Limit','clientRequestId':'NA'}".
Proof. reflexivity. Qed.

(** ** Facts about strings and the monad *)

Lemma str_app_assoc (a b c : string) : ((a ++ b) ++ c = a ++ (b ++ c))%string.
Proof. induction a as [|x a IH]; simpl; [reflexivity | now rewrite IH]. Qed.

Lemma str_app_nil_r (a : string) : (a ++ EmptyString = a)%string.
Proof. induction a as [|x a IH]; simpl; [reflexivity | now rewrite IH]. Qed.

Lemma str_app_cancel_l (a b c : string) : (a ++ b = a ++ c)%string -> b = c.
Proof. induction a as [|x a IH]; simpl; [auto | intros H; injection H; auto]. Qed.

Lemma str_length_app (a b : string) :
  String.length (a ++ b) = (String.length a + String.length b)%nat.
Proof. induction a as [|x a IH]; simpl; [reflexivity | now rewrite IH]. Qed.

Lemma str_app_cancel_r (a b c : string) : (a ++ c = b ++ c)%string -> a = b.
Proof.
  revert b. induction a as [|x a IH]; intros [|y b] H; simpl in H.
  - reflexivity.
  - apply (f_equal String.length) in H. simpl in H.
    rewrite str_length_app in H. lia.
  - apply (f_equal String.length) in H. simpl in H.
    rewrite str_length_app in H. lia.
  - injection H as -> H. f_equal. now apply IH.
Qed.

Lemma payload_of_eq (path : string) (ts : Z) (data : option string) :
  payload_of path ts data
  = (path ++ nl ++ py_str_int ts ++ nl ++ body_or_empty data)%string.
Proof.
  unfold payload_of, body_or_empty.
  destruct data as [d|]; rewrite ?str_app_nil_r, ?str_app_assoc; simpl;
    rewrite ?str_app_assoc; reflexivity.
Qed.

Lemma bind_ret {A B} (a : A) (k : A -> M B) : bind (ret a) k = k a.
Proof. reflexivity. Qed.

(** One run of [request]: it reads the clock once, sends one request built
    from that reading, and decodes the transport's reply. *)
Lemma request_run (api : string) (c : client) (path : string)
    (data : option string) (w : world) :
  request api c path data w =
  (match net w (List.length (sent w))
           (request_of api c path data (clock w (reads w))) with
   | NoReply => inl URLError
   | Reply st txt =>
       if (200 <=? st) && (st <? 300)
       then match Json.loads txt with
            | Some v => inr v
            | None => inl JSONDecodeError
            end
       else inl (HTTPError st)
   end,
   {| clock := clock w; reads := S (reads w); net := net w;
      sent := sent w ++ [request_of api c path data (clock w (reads w))] |}).
Proof.
  unfold request, bind, time_ms, urlopen, json_load, ret, raise. simpl.
  destruct (net w _ _) as [st txt|]; [|reflexivity].
  destruct ((200 <=? st) && (st <? 300)); [|reflexivity].
  destruct (Json.loads txt); reflexivity.
Qed.

(** ** C8: one timestamp per request *)

(** C8: within one call of [request], the clock is read exactly once, and
    the value read is both the [timestamp] header and the timestamp of the
    signed message [path \n timestamp \n body]. *)
Theorem request_timestamp_once :
  forall (api : string) (c : client) (path : string) (data : option string)
         (w : world),
  let ts := clock w (reads w) in
  reads (snd (request api c path data w)) = S (reads w)
  /\ exists r,
       sent (snd (request api c path data w)) = sent w ++ [r]
       /\ req_headers r =
          [("Accept"%string, HStr "application/json");
           ("Accept-Charset"%string, HStr "UTF-8");
           ("Content-Type"%string, HStr "application/json");
           ("apikey"%string, HStr (key c));
           ("timestamp"%string, HInt ts);
           ("signature"%string,
            HBytes (Base64.b64encode
                      (Hmac.sha512 (secret c)
                         (Utf8.encode (path ++ nl ++ py_str_int ts ++ nl
                                       ++ body_or_empty data)%string))))].
Proof.
  intros api c path data w ts.
  rewrite request_run. simpl. split; [reflexivity|].
  eexists. split; [reflexivity|].
  unfold request_of, header_of, signature_of. simpl.
  rewrite payload_of_eq. reflexivity.
Qed.

(** ** C1: the end-to-end create_order scenario *)

(** C1: [create_order("BTC", "AUD", 5000000000, 50000000, "Bid", "Limit")]
    sends one POST to [api_url + "/order/create"] whose body is exactly the
    JSON text of the spec, with a signature computed over
    ["/order/create" \n timestamp \n body], where timestamp is the value of
    the request's [timestamp] header. *)
Theorem create_order_btc_aud :
  forall (api : string) (c : client) (w : world),
  let body := dquote "{'currency':'AUD','instrument':'BTC','price':5000000000,'volume':50000000,'orderSide':'Bid','ordertype':'Limit','clientRequestId':'NA'}" in
  exists r ts,
    sent (snd (create_order api c "BTC" "AUD" 5000000000 50000000 "Bid" "Limit" w))
      = sent w ++ [r]
    /\ get_method r = "POST"%string
    /\ req_url r = (api ++ "/order/create")%string
    /\ req_data r = Some (Utf8.encode body)
    /\ In ("timestamp"%string, HInt ts) (req_headers r)
    /\ In ("signature"%string,
           HBytes (Base64.b64encode
                     (Hmac.sha512 (secret c)
                        (Utf8.encode ("/order/create" ++ nl ++ py_str_int ts
                                      ++ nl ++ body)%string))))
          (req_headers r).
Proof.
  intros api c w body.
  unfold create_order. rewrite request_run.
  eexists; exists (clock w (reads w)); simpl.
  split; [reflexivity|]. split; [reflexivity|]. split; [reflexivity|].
  split; [reflexivity|].
  unfold request_of, header_of, signature_of. rewrite payload_of_eq.
  split; [do 4 right; left; reflexivity|].
  do 5 right. left. reflexivity.
Qed.

(** ** C2: the signed message and the signature *)

(** C2: for a client built by [__init__], the key is the base64-decoded
    private key; the signed message is [path \n timestamp \n body] when a
    body is given and [path \n timestamp \n] (the body left out, nothing put
    in its place) when it is absent; and the [signature] header of every
    request is the base64 encoding of HMAC-SHA512, keyed by the decoded
    secret, of the UTF-8 bytes of that message, for the timestamp read. *)
Theorem signed_message_format :
  forall (pub priv : string) (c : client),
  init pub priv = inr c ->
  Base64.b64decode priv = inr (secret c)
  /\ (forall path ts body,
        payload_of path ts (Some body) = (path ++ nl ++ py_str_int ts ++ nl ++ body)%string)
  /\ (forall path ts,
        payload_of path ts None = (path ++ nl ++ py_str_int ts ++ nl)%string)
  /\ (forall api path data w,
        exists r,
          sent (snd (request api c path data w)) = sent w ++ [r]
          /\ In ("signature"%string,
                 HBytes (Base64.b64encode
                           (Hmac.sha512 (secret c)
                              (Utf8.encode (payload_of path (clock w (reads w)) data)))))
                (req_headers r)).
Proof.
  intros pub priv c Hinit.
  split; [| split; [| split]].
  - unfold init in Hinit. destruct (Base64.b64decode priv) as [e|s]; [discriminate|].
    injection Hinit as <-. reflexivity.
  - intros path ts body. rewrite payload_of_eq. reflexivity.
  - intros path ts. rewrite payload_of_eq. cbn [body_or_empty].
    now rewrite str_app_nil_r.
  - intros api path data w. rewrite request_run. eexists. split; [reflexivity|].
    do 5 right. left. reflexivity.
Qed.

Lemma signed_message_format_witness :
  let c := {| key := "pk"%string; secret := [65; 66; 67] |} in
  init "pk" "QUJD" = inr c
  /\ (Base64.b64decode "QUJD" = inr (secret c)
  /\ (forall path ts body,
        payload_of path ts (Some body) = (path ++ nl ++ py_str_int ts ++ nl ++ body)%string)
  /\ (forall path ts,
        payload_of path ts None = (path ++ nl ++ py_str_int ts ++ nl)%string)
  /\ (forall api path data w,
        exists r,
          sent (snd (request api c path data w)) = sent w ++ [r]
          /\ In ("signature"%string,
                 HBytes (Base64.b64encode
                           (Hmac.sha512 (secret c)
                              (Utf8.encode (payload_of path (clock w (reads w)) data)))))
                (req_headers r))).
Proof.
  intros c. split; [reflexivity|].
  apply (signed_message_format "pk" "QUJD" c). reflexivity.
Defined.

(** ** C3 and C9: balance(currency) *)

Lemma lookup_det (m : list (string * json)) (k : string) (x y : json) :
  Json.lookup m k = Some x -> Json.lookup m k = Some y -> x = y.
Proof. intros H1 H2. rewrite H1 in H2. now injection H2. Qed.

(** On an entry of the documented shape, one step of the comprehension does
    not fail, leaves the world alone, and selects the entry exactly when it
    is of the queried currency. *)
Lemma balance_item_entry (currency : string) (b : json) :
  entry_ok currency b ->
  exists o, (forall w, balance_item currency b w = (inr o, w))
            /\ (o = None <-> ~ entry_matches currency b)
            /\ (forall v, entry_matches currency b -> entry_balance b v -> o = Some v).
Proof.
  intros (m & cur & -> & Hcur & Hbal).
  destruct (py_eq_str cur currency) eqn:Heq.
  - destruct (Hbal eq_refl) as [v Hv].
    exists (Some v). split; [|split].
    + intros w. unfold balance_item, getitem, bind, ret. rewrite Hcur, Heq, Hv.
      reflexivity.
    + split; [discriminate|]. intros Hn. exfalso. apply Hn.
      exists m, cur. auto.
    + intros v' _ (m' & Hm' & Hv'). injection Hm' as <-.
      f_equal. eapply lookup_det; eauto.
  - exists None. split; [|split].
    + intros w. unfold balance_item, getitem, bind, ret. rewrite Hcur, Heq.
      reflexivity.
    + split; [|reflexivity]. intros _ (m' & cur' & Hm' & Hc' & Heq').
      injection Hm' as <-. rewrite (lookup_det _ _ _ _ Hc' Hcur) in Heq'.
      congruence.
    + intros v (m' & cur' & Hm' & Hc' & Heq'). injection Hm' as <-.
      rewrite (lookup_det _ _ _ _ Hc' Hcur) in Heq'. congruence.
Qed.

(** The comprehension over a list of documented entries: it does not fail,
    leaves the world alone, is empty exactly when no entry is of the queried
    currency, and starts with the balance of the first such entry. *)
Lemma comprehension_entries (currency : string) (l : list json) :
  Forall (entry_ok currency) l ->
  exists vs,
    (forall w, comprehension (balance_item currency) l w = (inr vs, w))
    /\ (vs = [] <-> Forall (fun b => ~ entry_matches currency b) l)
    /\ (forall pre b post v,
          l = pre ++ b :: post ->
          Forall (fun e => ~ entry_matches currency e) pre ->
          entry_matches currency b -> entry_balance b v ->
          hd_error vs = Some v).
Proof.
  induction 1 as [|x l Hx Hl IH].
  - exists []. split; [|split].
    + reflexivity.
    + split; auto.
    + intros [|? ?] ? ? ? H; discriminate.
  - destruct IH as (vs & Hrun & Hnil & Hfirst).
    destruct (balance_item_entry currency x Hx) as (o & Ho & HoN & HoS).
    exists (match o with Some v => v :: vs | None => vs end). split; [|split].
    + intros w. simpl. unfold bind at 1. rewrite Ho.
      unfold bind. rewrite Hrun. reflexivity.
    + destruct o as [v|].
      * split; [discriminate|]. intros HF. inversion HF as [|? ? Hn _]; subst.
        apply HoN in Hn. discriminate.
      * rewrite Hnil. split.
        -- intros HF. constructor; [now apply HoN | exact HF].
        -- intros HF. now inversion HF.
    + intros [|y pre] b post v Heq Hpre Hm Hb.
      * injection Heq as -> ->. rewrite (HoS v Hm Hb). reflexivity.
      * injection Heq as -> ->. inversion Hpre as [|? ? Hy Hpre']; subst.
        apply HoN in Hy. subst o. eapply Hfirst; eauto.
Qed.

Lemma balance_run (api : string) (c : client) (currency : string) (w : world)
    (l : list json) :
  fst (balances api c w) = inr (JArr l) ->
  Forall (entry_ok currency) l ->
  exists vs,
    balance api c currency w
      = (inr (match vs with [] => JInt 0 | v :: _ => v end), snd (balances api c w))
    /\ (vs = [] <-> Forall (fun b => ~ entry_matches currency b) l)
    /\ (forall pre b post v,
          l = pre ++ b :: post ->
          Forall (fun e => ~ entry_matches currency e) pre ->
          entry_matches currency b -> entry_balance b v ->
          hd_error vs = Some v).
Proof.
  intros Hbs Hok.
  destruct (comprehension_entries currency l Hok) as (vs & Hrun & Hnil & Hfirst).
  exists vs. split; [|split; assumption].
  unfold balance. unfold bind at 1.
  destruct (balances api c w) as [[e|bs] w1]; simpl in Hbs; [discriminate|].
  injection Hbs as ->. cbn [py_iter]. unfold bind at 1, ret at 1.
  unfold bind. rewrite Hrun.
  destruct vs; reflexivity.
Qed.

(** C3: when [balances()] returns a list of entries of the documented shape,
    [balance(currency)] does not raise and has the same effects as
    [balances()]; it returns 0 when no entry has the given currency, and the
    matching entry's ['balance'] field when exactly one entry has it. *)
Theorem balance_spec :
  forall (api : string) (c : client) (currency : string) (w : world)
         (l : list json),
  fst (balances api c w) = inr (JArr l) ->
  Forall (entry_ok currency) l ->
  snd (balance api c currency w) = snd (balances api c w)
  /\ (Forall (fun b => ~ entry_matches currency b) l ->
      fst (balance api c currency w) = inr (JInt 0))
  /\ (forall pre b post v,
        l = pre ++ b :: post ->
        Forall (fun e => ~ entry_matches currency e) (pre ++ post) ->
        entry_matches currency b -> entry_balance b v ->
        fst (balance api c currency w) = inr v).
Proof.
  intros api c currency w l Hbs Hok.
  destruct (balance_run api c currency w l Hbs Hok) as (vs & Hrun & Hnil & Hfirst).
  rewrite Hrun. split; [reflexivity|]. split.
  - intros Hnone. apply Hnil in Hnone. subst vs. reflexivity.
  - intros pre b post v Hl Hrest Hm Hb.
    assert (Hpre : Forall (fun e => ~ entry_matches currency e) pre).
    { apply Forall_app in Hrest. tauto. }
    specialize (Hfirst pre b post v Hl Hpre Hm Hb).
    destruct vs as [|u vs]; simpl in Hfirst; [discriminate|].
    injection Hfirst as ->. reflexivity.
Qed.

(** C9: when several entries of [balances()] have the queried currency,
    [balance(currency)] returns the ['balance'] field of the first of them
    in list order. *)
Theorem balance_first_match :
  forall (api : string) (c : client) (currency : string) (w : world)
         (pre : list json) (b : json) (post : list json) (v : json),
  fst (balances api c w) = inr (JArr (pre ++ b :: post)) ->
  Forall (entry_ok currency) (pre ++ b :: post) ->
  Forall (fun e => ~ entry_matches currency e) pre ->
  entry_matches currency b -> entry_balance b v ->
  fst (balance api c currency w) = inr v.
Proof.
  intros api c currency w pre b post v Hbs Hok Hpre Hm Hb.
  destruct (balance_run api c currency w _ Hbs Hok) as (vs & Hrun & _ & Hfirst).
  specialize (Hfirst pre b post v eq_refl Hpre Hm Hb).
  rewrite Hrun. destruct vs as [|u vs]; simpl in Hfirst; [discriminate|].
  injection Hfirst as ->. reflexivity.
Qed.

Ltac solve_entry_ok :=
  eexists; eexists; split; [reflexivity|]; split; [reflexivity|];
  intros _; eexists; reflexivity.

Ltac solve_not_match :=
  let m := fresh "m" in
  let Hm := fresh "Hm" in let Hc := fresh "Hc" in let Heq := fresh "Heq" in
  intros (m & ? & Hm & Hc & Heq); injection Hm as <-;
  vm_compute in Hc; injection Hc as <-; vm_compute in Heq; discriminate.

Lemma balance_spec_witness :
  let txt := ("[" ++ entry_text "AUD" 5 ++ "," ++ entry_text "BTC" 7 ++ "]")%string in
  let w := demo_world 1000 200 txt in
  fst (balances demo_api demo_client w) = inr (JArr [entry "AUD" 5; entry "BTC" 7])
  /\ Forall (entry_ok "ETH") [entry "AUD" 5; entry "BTC" 7]
  /\ Forall (entry_ok "BTC") [entry "AUD" 5; entry "BTC" 7]
  /\ fst (balance demo_api demo_client "ETH" w) = inr (JInt 0)
  /\ fst (balance demo_api demo_client "BTC" w) = inr (JInt 7).
Proof.
  intros txt w.
  assert (Hbs : fst (balances demo_api demo_client w)
                = inr (JArr [entry "AUD" 5; entry "BTC" 7])) by (vm_compute; reflexivity).
  assert (HokE : Forall (entry_ok "ETH") [entry "AUD" 5; entry "BTC" 7])
    by (repeat constructor; solve_entry_ok).
  assert (HokB : Forall (entry_ok "BTC") [entry "AUD" 5; entry "BTC" 7])
    by (repeat constructor; solve_entry_ok).
  split; [exact Hbs|]. split; [exact HokE|]. split; [exact HokB|]. split.
  - apply (proj1 (proj2 (balance_spec demo_api demo_client "ETH" w _ Hbs HokE))).
    repeat constructor; solve_not_match.
  - apply (proj2 (proj2 (balance_spec demo_api demo_client "BTC" w _ Hbs HokB))
             [entry "AUD" 5] (entry "BTC" 7) []).
    + reflexivity.
    + repeat constructor; solve_not_match.
    + eexists; eexists; split; [reflexivity|]; split; reflexivity.
    + eexists; split; reflexivity.
Defined.

Lemma balance_first_match_witness :
  let txt := ("[" ++ entry_text "BTC" 7 ++ "," ++ entry_text "AUD" 5 ++ ","
              ++ entry_text "AUD" 9 ++ "]")%string in
  let w := demo_world 1000 200 txt in
  fst (balances demo_api demo_client w)
    = inr (JArr ([entry "BTC" 7] ++ entry "AUD" 5 :: [entry "AUD" 9]))
  /\ fst (balance demo_api demo_client "AUD" w) = inr (JInt 5).
Proof.
  intros txt w.
  assert (Hbs : fst (balances demo_api demo_client w)
                = inr (JArr ([entry "BTC" 7] ++ entry "AUD" 5 :: [entry "AUD" 9])))
    by (vm_compute; reflexivity).
  split; [exact Hbs|].
  apply (balance_first_match demo_api demo_client "AUD" w
           [entry "BTC" 7] (entry "AUD" 5) [entry "AUD" 9] (JInt 5) Hbs).
  - repeat constructor; solve_entry_ok.
  - repeat constructor; solve_not_match.
  - eexists; eexists; split; [reflexivity|]; split; reflexivity.
  - eexists; split; reflexivity.
Defined.

(** ** C4: cancel_order([]) *)

(** C4 (counterexample): [cancel_order([])] is not a client-side no-op: it
    sends a request, and when the server answers HTTP 400 the call raises
    [HTTPError(400)] instead of returning an empty ['responses'] list. *)
Lemma cancel_order_empty_not_noop :
  let w := demo_world 1000 400 "" in
  List.length (sent (snd (cancel_order demo_api demo_client [] w))) = 1%nat
  /\ fst (cancel_order demo_api demo_client [] w) = inl (HTTPError 400).
Proof. split; vm_compute; reflexivity. Qed.

(** C4 (amended): [cancel_order([])] is not special-cased.  It sends a
    signed POST to [/order/cancel] with the body [{"orderIds":[]}] and
    returns what the server answers, decoded: a 2xx answer whose text
    decodes to [v] gives [v] (so ['responses'] is empty only when the
    server says so), and an answer with status 400 or above raises
    [HTTPError] with that status; in both cases that POST is the only
    request sent. *)
Theorem cancel_order_empty :
  forall (api : string) (c : client) (w : world),
  let r := request_of api c "/order/cancel" (Some (dquote "{'orderIds':[]}"))
             (clock w (reads w)) in
  get_method r = "POST"%string
  /\ req_url r = (api ++ "/order/cancel")%string
  /\ req_data r = Some (Utf8.encode (dquote "{'orderIds':[]}"))
  /\ (forall st txt, net w (List.length (sent w)) r = Reply st txt ->
        (200 <= st < 300 \/ 400 <= st) ->
        sent (snd (cancel_order api c [] w)) = sent w ++ [r])
  /\ (forall st txt v, net w (List.length (sent w)) r = Reply st txt ->
        (200 <= st < 300) -> Json.loads txt = Some v ->
        fst (cancel_order api c [] w) = inr v)
  /\ (forall st txt, net w (List.length (sent w)) r = Reply st txt ->
        400 <= st -> fst (cancel_order api c [] w) = inl (HTTPError st)).
Proof.
  intros api c w r.
  assert (Hd : cancel_order_data [] = dquote "{'orderIds':[]}") by reflexivity.
  unfold cancel_order. rewrite Hd, request_run. fold r.
  split; [reflexivity|]. split; [reflexivity|]. split; [reflexivity|].
  split; [|split].
  - intros st txt _ _. reflexivity.
  - intros st txt v Hnet Hst Hv. cbn [fst]. rewrite Hnet.
    replace ((200 <=? st) && (st <? 300)) with true by lia.
    now rewrite Hv.
  - intros st txt Hnet Hst. cbn [fst]. rewrite Hnet.
    replace ((200 <=? st) && (st <? 300)) with false by lia.
    reflexivity.
Qed.

Lemma cancel_order_empty_witness :
  let txt := dquote "{'success':true,'errorCode':null,'errorMessage':null,'responses':[]}" in
  let w := demo_world 1000 200 txt in
  fst (cancel_order demo_api demo_client [] w)
  = inr (JObj [("success"%string, JBool true); ("errorCode"%string, JNull);
               ("errorMessage"%string, JNull); ("responses"%string, JArr [])]).
Proof.
  intros txt w.
  destruct (cancel_order_empty demo_api demo_client w) as (_ & _ & _ & _ & H & _).
  apply (H 200 txt).
  - reflexivity.
  - lia.
  - vm_compute. reflexivity.
Defined.

(** ** C5: behaviour under HTTP 503 *)

(** Under a transport answering every request with a non-2xx [st],
    [request] sends one request and raises [HTTPError st]. *)
Lemma request_error_status (api : string) (c : client) (path : string)
    (data : option string) (w : world) (st : Z) :
  always_status w st -> ~ (200 <= st < 300) ->
  fst (request api c path data w) = inl (HTTPError st)
  /\ List.length (sent (snd (request api c path data w))) = S (List.length (sent w)).
Proof.
  intros [txt Hnet] Hst. rewrite request_run. cbn [fst snd sent].
  rewrite Hnet. replace ((200 <=? st) && (st <? 300)) with false by lia.
  rewrite length_app. simpl. split; [reflexivity | lia].
Qed.

(** C5 (counterexample): with a transport answering HTTP 503, a read
    ([balances]) is not retried (one request is sent), and [withdraw_crypto]
    fails with exactly the same error as the read, [HTTPError(503)], not a
    distinct ambiguous-failure kind. *)
Lemma withdraw_503_not_distinct :
  let w := demo_world 1000 503 "" in
  List.length (sent (snd (balances demo_api demo_client w))) = 1%nat
  /\ fst (balances demo_api demo_client w) = inl (HTTPError 503)
  /\ fst (withdraw_crypto demo_api demo_client 100000000 "addr" "BTC" w)
     = fst (balances demo_api demo_client w).
Proof. split; [|split]; vm_compute; reflexivity. Qed.

(** C5 (amended): under a transport answering every request with HTTP 503,
    every read operation ([balances], [fee], [market_tick],
    [market_orderbook], [market_trades]) and [withdraw_crypto] send exactly
    one request and raise the same [HTTPError(503)]: no call is retried, and
    there is no separate error kind for non-idempotent calls. *)
Theorem http_503_single_attempt :
  forall (api : string) (c : client) (w : world),
  always_status w 503 ->
  let once := fun (m : M json) =>
    fst (m w) = inl (HTTPError 503)
    /\ List.length (sent (snd (m w))) = S (List.length (sent w)) in
  once (balances api c)
  /\ (forall instrument currency, once (fee api c instrument currency))
  /\ (forall instrument currency, once (market_tick api c instrument currency))
  /\ (forall instrument currency, once (market_orderbook api c instrument currency))
  /\ (forall instrument currency since_id,
        once (market_trades api c instrument currency since_id))
  /\ (forall amount address currency,
        once (withdraw_crypto api c amount address currency)).
Proof.
  intros api c w H503 once.
  assert (Hst : ~ (200 <= 503 < 300)) by lia.
  assert (Hreq : forall path data, once (request api c path data)).
  { intros path data. exact (request_error_status api c path data w 503 H503 Hst). }
  split; [apply Hreq|].
  repeat (split; [intros; apply Hreq|]).
  intros; apply Hreq.
Qed.

Lemma http_503_single_attempt_witness :
  always_status (demo_world 1000 503 "") 503
  /\ fst (withdraw_crypto demo_api demo_client 100000000 "addr" "BTC"
            (demo_world 1000 503 "")) = inl (HTTPError 503).
Proof.
  assert (H : always_status (demo_world 1000 503 "") 503)
    by (exists ""%string; reflexivity).
  split; [exact H|].
  exact (proj1 (proj2 (proj2 (proj2 (proj2 (proj2
           (http_503_single_attempt demo_api demo_client _ H))))) 100000000 "addr"%string "BTC"%string)).
Defined.

(** ** C6: what the signature depends on *)

Lemma string_of_uint_no_nl (d : Decimal.uint) : has_nl (NilEmpty.string_of_uint d) = false.
Proof. induction d; simpl; auto. Qed.

Lemma py_str_int_no_nl (z : Z) : has_nl (py_str_int z) = false.
Proof.
  unfold py_str_int, NilEmpty.string_of_int.
  destruct (Z.to_int z); simpl; apply string_of_uint_no_nl.
Qed.

Lemma py_str_int_inj (a b : Z) : py_str_int a = py_str_int b -> a = b.
Proof.
  unfold py_str_int. intros H.
  apply DecimalZ.to_int_inj.
  apply (f_equal NilEmpty.int_of_string) in H.
  rewrite !NilEmpty.isi in H. now injection H.
Qed.

Lemma cancel_at_nl (a b x y : string) :
  has_nl a = false -> has_nl b = false ->
  (a ++ String "010"%char x = b ++ String "010"%char y)%string -> a = b /\ x = y.
Proof.
  revert b. induction a as [|ca a IH]; intros [|cb b] Ha Hb H; simpl in *.
  - injection H. auto.
  - injection H as <- _. rewrite Ascii.eqb_refl in Hb. discriminate.
  - injection H as -> _. rewrite Ascii.eqb_refl in Ha. discriminate.
  - apply orb_false_iff in Ha, Hb. injection H as <- H.
    destruct (IH b (proj2 Ha) (proj2 Hb) H) as [-> ->]. auto.
Qed.

Lemma utf8_decode_encode (s : string) : utf8_decode (Utf8.encode s) = s.
Proof.
  induction s as [|c s IH]; [reflexivity|].
  simpl. rewrite <- IH at 2.
  generalize (Utf8.encode s). intros r.
  destruct c as [[] [] [] [] [] [] [] []]; reflexivity.
Qed.

Lemma utf8_encode_inj (s t : string) : Utf8.encode s = Utf8.encode t -> s = t.
Proof.
  intros H. rewrite <- (utf8_decode_encode s), <- (utf8_decode_encode t).
  now rewrite H.
Qed.

Lemma norm_key_short (k : bytes) :
  (List.length k <= Hmac.block_size)%nat ->
  Hmac.norm_key k = k ++ repeat 0 (Hmac.block_size - List.length k).
Proof.
  intros Hk. unfold Hmac.norm_key.
  destruct (Nat.ltb_spec Hmac.block_size (List.length k)); [lia | reflexivity].
Qed.

Lemma norm_key_zero (k : bytes) :
  (List.length k < Hmac.block_size)%nat ->
  Hmac.norm_key (k ++ [0]) = Hmac.norm_key k.
Proof.
  intros Hk.
  rewrite norm_key_short by (rewrite length_app; cbn [List.length]; lia).
  rewrite norm_key_short by lia.
  rewrite <- app_assoc, length_app. cbn [List.length app]. f_equal.
  replace (Hmac.block_size - List.length k)%nat
    with (S (Hmac.block_size - (List.length k + 1)))%nat by lia.
  reflexivity.
Qed.

(** C6 (counterexample): two inputs differing only in the body (absent
    versus empty) give the same signature, and so do two secrets differing
    only by a trailing zero byte. *)
Lemma signature_collisions :
  None <> Some ""%string
  /\ signature_of [65; 66; 67] "/order/create" 1000 None
     = signature_of [65; 66; 67] "/order/create" 1000 (Some ""%string)
  /\ [65; 66; 67] <> [65; 66; 67; 0]
  /\ signature_of [65; 66; 67] "/account/balance" 1000 None
     = signature_of [65; 66; 67; 0] "/account/balance" 1000 None.
Proof.
  split; [discriminate|]. split; [vm_compute; reflexivity|].
  split; [discriminate|]. vm_compute; reflexivity.
Qed.

(** C6 (amended): the signature is a function of the secret and the UTF-8
    bytes of the canonical message [path \n timestamp \n body], equal
    inputs giving equal signatures.  Changing the path, the timestamp, or
    the body text changes those bytes; an absent body and an empty body give
    the same message, hence the same signature; a secret shorter than the
    128-byte HMAC block and the same secret with a zero byte appended give
    the same signature. *)
Theorem signature_dependence :
  (forall sec path ts data,
     signature_of sec path ts data
     = Base64.b64encode
         (Hmac.sha512 sec (Utf8.encode (path ++ nl ++ py_str_int ts ++ nl
                                        ++ body_or_empty data)%string)))
  /\ (forall path1 path2 ts data, path1 <> path2 ->
        Utf8.encode (payload_of path1 ts data) <> Utf8.encode (payload_of path2 ts data))
  /\ (forall path ts1 ts2 data, ts1 <> ts2 ->
        Utf8.encode (payload_of path ts1 data) <> Utf8.encode (payload_of path ts2 data))
  /\ (forall path ts data1 data2, body_or_empty data1 <> body_or_empty data2 ->
        Utf8.encode (payload_of path ts data1) <> Utf8.encode (payload_of path ts data2))
  /\ (forall sec path ts,
        signature_of sec path ts None = signature_of sec path ts (Some ""%string))
  /\ (forall sec path ts data, (List.length sec < 128)%nat ->
        signature_of sec path ts data = signature_of (sec ++ [0]) path ts data).
Proof.
  split; [|split; [|split; [|split; [|split]]]].
  - intros. unfold signature_of. now rewrite payload_of_eq.
  - intros path1 path2 ts data Hne H. apply utf8_encode_inj in H.
    rewrite !payload_of_eq in H. apply Hne. eapply str_app_cancel_r. exact H.
  - intros path ts1 ts2 data Hne H. apply utf8_encode_inj in H.
    rewrite !payload_of_eq in H.
    apply str_app_cancel_l in H. apply str_app_cancel_l in H.
    apply cancel_at_nl in H; try apply py_str_int_no_nl.
    apply Hne, py_str_int_inj, (proj1 H).
  - intros path ts data1 data2 Hne H. apply utf8_encode_inj in H.
    rewrite !payload_of_eq in H.
    do 4 apply str_app_cancel_l in H. exact (Hne H).
  - intros. unfold signature_of. rewrite !payload_of_eq. reflexivity.
  - intros sec path ts data Hlen. unfold signature_of, Hmac.sha512.
    rewrite norm_key_zero; [reflexivity|]. exact Hlen.
Qed.

Lemma signature_dependence_witness :
  "/a"%string <> "/b"%string
  /\ Utf8.encode (payload_of "/a" 1000 None) <> Utf8.encode (payload_of "/b" 1000 None)
  /\ (List.length [65; 66; 67] < 128)%nat
  /\ signature_of [65; 66; 67] "/a" 1000 None = signature_of [65; 66; 67; 0] "/a" 1000 None.
Proof.
  assert (Hp : "/a"%string <> "/b"%string) by discriminate.
  assert (Hl : (List.length [65; 66; 67] < 128)%nat) by (simpl; lia).
  split; [exact Hp|]. split.
  - exact (proj1 (proj2 signature_dependence) _ _ 1000 None Hp).
  - split; [exact Hl|].
    exact (proj2 (proj2 (proj2 (proj2 (proj2 signature_dependence))))
             [65; 66; 67] "/a"%string 1000 None Hl).
Defined.

(** ** C7: decoding the private key at construction *)

(** C7 (counterexample): ["QUJD!"] is not valid base64 (the ["!"] is outside
    the alphabet), yet [__init__] accepts it, silently dropping the ["!"]. *)
Lemma init_accepts_invalid_key :
  rfc4648_valid "QUJD!" = false
  /\ init "pk" "QUJD!" = inr {| key := "pk"%string; secret := [65; 66; 67] |}.
Proof. split; reflexivity. Qed.

(** C7 (amended): [__init__] fails exactly when [base64.b64decode] of the
    private key raises (with [binascii.Error], or [ValueError] for non-ASCII
    text), and then no client exists; otherwise it stores the decoded bytes,
    and a later [request] never decodes the key again: its only errors are
    transport, HTTP status and JSON decoding errors.  Bytes outside the
    base64 alphabet are discarded rather than rejected. *)
Theorem init_fails_fast :
  (forall pub priv,
     (exists e, init pub priv = inl e) <-> (exists e, Base64.b64decode priv = inl e))
  /\ (forall pub priv e, init pub priv = inl e -> e = BinasciiError \/ e = ValueError)
  /\ (forall pub priv c, init pub priv = inr c ->
        Base64.b64decode priv = inr (secret c) /\ key c = pub)
  /\ (forall api c path data w e, fst (request api c path data w) = inl e ->
        e = URLError \/ e = JSONDecodeError \/ exists st, e = HTTPError st)
  /\ (forall pub, init pub "QUJD!" = init pub "QUJD").
Proof.
  split; [|split; [|split; [|split]]].
  - intros pub priv. unfold init.
    destruct (Base64.b64decode priv) as [e|s]; split; intros [e' H];
      try discriminate; eauto.
  - intros pub priv e. unfold init, Base64.b64decode.
    destruct (existsb _ _).
    + intros H. injection H as <-. auto.
    + destruct (Base64.a2b_base64 _); intros H; [discriminate|].
      injection H as <-. auto.
  - intros pub priv c. unfold init.
    destruct (Base64.b64decode priv) as [e|s]; intros H; [discriminate|].
    injection H as <-. auto.
  - intros api c path data w e. rewrite request_run. cbn [fst].
    destruct (net w _ _) as [st txt|]; [|intros H; injection H as <-; auto].
    destruct ((200 <=? st) && (st <? 300)).
    + destruct (Json.loads txt); intros H; [discriminate|].
      injection H as <-. auto.
    + intros H. injection H as <-. eauto.
  - reflexivity.
Qed.

Lemma init_fails_fast_witness :
  init "pk" "abc" = inl BinasciiError
  /\ Base64.b64decode "QUJD" = inr [65; 66; 67]
  /\ (BinasciiError = BinasciiError \/ BinasciiError = ValueError).
Proof.
  assert (H : init "pk" "abc" = inl BinasciiError) by reflexivity.
  split; [exact H|]. split.
  - exact (proj1 (proj1 (proj2 (proj2 init_fails_fast)) "pk"%string "QUJD"%string
                    {| key := "pk"%string; secret := [65; 66; 67] |} eq_refl)).
  - exact (proj1 (proj2 init_fails_fast) "pk"%string "abc"%string BinasciiError H).
Defined.

(** ** C10: create_order builds its body by interpolation *)

(** C10: the body of [create_order] is the fixed JSON template with the six
    arguments inserted verbatim, without escaping; so an instrument holding
    a double quote yields a body that is not JSON at all, and one holding
    a quoted fragment yields a JSON object whose fields differ from the
    arguments. *)
Theorem create_order_body_verbatim :
  (forall instrument currency price volume order_side order_type,
     create_order_data instrument currency price volume order_side order_type
     = (dquote "{'currency':'" ++ currency ++ dquote "','instrument':'" ++ instrument
        ++ dquote "','price':" ++ py_str_int price ++ dquote ",'volume':"
        ++ py_str_int volume ++ dquote ",'orderSide':'" ++ order_side
        ++ dquote "','ordertype':'" ++ order_type
        ++ dquote "','clientRequestId':'NA'}")%string)
  /\ Json.loads (create_order_data (dquote "B'TC") "AUD" 1 1 "Bid" "Limit") = None
  /\ exists m,
       Json.loads (create_order_data (dquote "BTC','currency':'USD") "AUD" 1 1 "Bid" "Limit")
         = Some (JObj m)
       /\ Json.lookup m "instrument"%string = Some (JStr "BTC"%string)
       /\ Json.lookup m "currency"%string = Some (JStr "USD"%string).
Proof.
  split; [|split].
  - intros. reflexivity.
  - vm_compute. reflexivity.
  - eexists. split; [vm_compute; reflexivity|]. split; vm_compute; reflexivity.
Qed.

(** ** Base64, SHA-512 and JSON facts used by the properties below *)

Lemma forall_range (f : Z -> bool) (n : nat) :
  forallb f (map Z.of_nat (seq 0 n)) = true ->
  forall x, 0 <= x < Z.of_nat n -> f x = true.
Proof.
  intros H x Hx. rewrite forallb_forall in H. apply H.
  apply in_map_iff. exists (Z.to_nat x). split; [lia|]. apply in_seq. lia.
Qed.

Lemma forall_range2 (f : Z -> Z -> bool) (n : nat) :
  forallb (fun x => forallb (f x) (map Z.of_nat (seq 0 n))) (map Z.of_nat (seq 0 n)) = true ->
  forall x y, 0 <= x < Z.of_nat n -> 0 <= y < Z.of_nat n -> f x y = true.
Proof.
  intros H x y Hx Hy.
  exact (forall_range (f x) n (forall_range _ n H x Hx) y Hy).
Qed.

Lemma enc_char_ok (v : Z) : 0 <= v < 64 ->
  Base64.dec_val (Base64.enc_char v) = v /\ (Base64.enc_char v =? 61) = false
  /\ 0 <= Base64.enc_char v < 128.
Proof.
  intros Hv.
  assert (H := forall_range (fun v => (Base64.dec_val (Base64.enc_char v) =? v)
            && negb (Base64.enc_char v =? 61) && (0 <=? Base64.enc_char v)
            && (Base64.enc_char v <? 128)) 64 ltac:(vm_compute; reflexivity) v Hv).
  repeat rewrite andb_true_iff in H. destruct H as [[[H1 H2] H3] H4].
  apply Z.eqb_eq in H1. apply negb_true_iff in H2. lia.
Qed.

Lemma byte_x (x : Z) : is_byte x ->
  sextet (Z.shiftr x 2) = true
  /\ sextet (Z.shiftl (Z.land x 3) 4) = true
  /\ Z.lor (Z.shiftl (Z.shiftr x 2) 2) (Z.shiftr (Z.shiftl (Z.land x 3) 4) 4) = x.
Proof.
  intros Hx.
  assert (H := forall_range (fun x => sextet (Z.shiftr x 2)
      && sextet (Z.shiftl (Z.land x 3) 4)
      && (Z.lor (Z.shiftl (Z.shiftr x 2) 2) (Z.shiftr (Z.shiftl (Z.land x 3) 4) 4) =? x))
      256 ltac:(vm_compute; reflexivity) x Hx).
  repeat rewrite andb_true_iff in H. destruct H as [[H1 H2] H3].
  apply Z.eqb_eq in H3. auto.
Qed.

Lemma byte_y (y : Z) : is_byte y ->
  Z.lor (Z.shiftl (Z.shiftr y 4) 4) (Z.land y 15) = y
  /\ sextet (Z.shiftl (Z.land y 15) 2) = true
  /\ Z.shiftr (Z.shiftl (Z.land y 15) 2) 2 = Z.land y 15.
Proof.
  intros Hy.
  assert (H := forall_range (fun y =>
      (Z.lor (Z.shiftl (Z.shiftr y 4) 4) (Z.land y 15) =? y)
      && sextet (Z.shiftl (Z.land y 15) 2)
      && (Z.shiftr (Z.shiftl (Z.land y 15) 2) 2 =? Z.land y 15)) 256 ltac:(vm_compute; reflexivity) y Hy).
  repeat rewrite andb_true_iff in H. destruct H as [[H1 H2] H3].
  apply Z.eqb_eq in H1, H3. auto.
Qed.

Lemma byte_z (z : Z) : is_byte z ->
  sextet (Z.land z 63) = true
  /\ Z.lor (Z.shiftl (Z.shiftr z 6) 6) (Z.land z 63) = z.
Proof.
  intros Hz.
  assert (H := forall_range (fun z => sextet (Z.land z 63)
      && (Z.lor (Z.shiftl (Z.shiftr z 6) 6) (Z.land z 63) =? z)) 256 ltac:(vm_compute; reflexivity) z Hz).
  repeat rewrite andb_true_iff in H. destruct H as [H1 H2].
  apply Z.eqb_eq in H2. auto.
Qed.

Lemma byte_xy (x y : Z) : is_byte x -> is_byte y ->
  let v2 := Z.lor (Z.shiftl (Z.land x 3) 4) (Z.shiftr y 4) in
  sextet v2 = true
  /\ Z.lor (Z.shiftl (Z.shiftr x 2) 2) (Z.shiftr v2 4) = x
  /\ Z.land v2 15 = Z.shiftr y 4.
Proof.
  intros Hx Hy v2.
  assert (H := forall_range2 (fun x y =>
      let v2 := Z.lor (Z.shiftl (Z.land x 3) 4) (Z.shiftr y 4) in
      sextet v2 && (Z.lor (Z.shiftl (Z.shiftr x 2) 2) (Z.shiftr v2 4) =? x)
      && (Z.land v2 15 =? Z.shiftr y 4)) 256 ltac:(vm_compute; reflexivity) x y Hx Hy).
  cbv zeta in H. repeat rewrite andb_true_iff in H. destruct H as [[H1 H2] H3].
  apply Z.eqb_eq in H2, H3. auto.
Qed.

Lemma byte_yz (y z : Z) : is_byte y -> is_byte z ->
  let v3 := Z.lor (Z.shiftl (Z.land y 15) 2) (Z.shiftr z 6) in
  sextet v3 = true
  /\ Z.shiftr v3 2 = Z.land y 15
  /\ Z.land v3 3 = Z.shiftr z 6.
Proof.
  intros Hy Hz v3.
  assert (H := forall_range2 (fun y z =>
      let v3 := Z.lor (Z.shiftl (Z.land y 15) 2) (Z.shiftr z 6) in
      sextet v3 && (Z.shiftr v3 2 =? Z.land y 15)
      && (Z.land v3 3 =? Z.shiftr z 6)) 256 ltac:(vm_compute; reflexivity) y z Hy Hz).
  cbv zeta in H. repeat rewrite andb_true_iff in H. destruct H as [[H1 H2] H3].
  apply Z.eqb_eq in H2, H3. auto.
Qed.

Lemma sextet_range (v : Z) : sextet v = true -> 0 <= v < 64.
Proof. unfold sextet. rewrite andb_true_iff, Z.leb_le, Z.ltb_lt. auto. Qed.

Lemma a2b_val (v : Z) r q l p acc : 0 <= v < 64 ->
  Base64.a2b_loop (Base64.enc_char v :: r) q l p acc =
  if q =? 0 then Base64.a2b_loop r 1 v 0 acc
  else if q =? 1 then
    Base64.a2b_loop r 2 (Z.land v 15) 0 (Z.lor (Z.shiftl l 2) (Z.shiftr v 4) :: acc)
  else if q =? 2 then
    Base64.a2b_loop r 3 (Z.land v 3) 0 (Z.lor (Z.shiftl l 4) (Z.shiftr v 2) :: acc)
  else Base64.a2b_loop r 0 0 0 (Z.lor (Z.shiftl l 6) v :: acc).
Proof.
  intros Hv. destruct (enc_char_ok v Hv) as (Hd & H61 & _).
  cbn [Base64.a2b_loop]. rewrite H61, Hd.
  replace (64 <=? v) with false by lia. reflexivity.
Qed.

Lemma a2b_val0 (v : Z) r l p acc : sextet v = true ->
  Base64.a2b_loop (Base64.enc_char v :: r) 0 l p acc = Base64.a2b_loop r 1 v 0 acc.
Proof. intros Hv. rewrite a2b_val by (now apply sextet_range). reflexivity. Qed.

Lemma a2b_val1 (v : Z) r l p acc : sextet v = true ->
  Base64.a2b_loop (Base64.enc_char v :: r) 1 l p acc =
  Base64.a2b_loop r 2 (Z.land v 15) 0 (Z.lor (Z.shiftl l 2) (Z.shiftr v 4) :: acc).
Proof. intros Hv. rewrite a2b_val by (now apply sextet_range). reflexivity. Qed.

Lemma a2b_val2 (v : Z) r l p acc : sextet v = true ->
  Base64.a2b_loop (Base64.enc_char v :: r) 2 l p acc =
  Base64.a2b_loop r 3 (Z.land v 3) 0 (Z.lor (Z.shiftl l 4) (Z.shiftr v 2) :: acc).
Proof. intros Hv. rewrite a2b_val by (now apply sextet_range). reflexivity. Qed.

Lemma a2b_val3 (v : Z) r l p acc : sextet v = true ->
  Base64.a2b_loop (Base64.enc_char v :: r) 3 l p acc =
  Base64.a2b_loop r 0 0 0 (Z.lor (Z.shiftl l 6) v :: acc).
Proof. intros Hv. rewrite a2b_val by (now apply sextet_range). reflexivity. Qed.

Lemma a2b_b64encode_acc (n : nat) (b : bytes) (acc : bytes) :
  (List.length b <= n)%nat -> Forall is_byte b ->
  Base64.a2b_loop (Base64.b64encode b) 0 0 0 acc = Some (rev acc ++ b).
Proof.
  revert b acc. induction n as [|n IH]; intros b acc Hlen Hb.
  - destruct b; [|simpl in Hlen; lia]. simpl. now rewrite app_nil_r.
  - destruct b as [|x [|y [|z r]]].
    + simpl. now rewrite app_nil_r.
    + inversion Hb as [|? ? Hx _]; subst.
      destruct (byte_x x Hx) as (H1 & H2 & H3).
      cbn [Base64.b64encode].
      rewrite a2b_val0 by exact H1. rewrite a2b_val1 by exact H2.
      cbn -[Z.lor Z.shiftl Z.shiftr Z.land].
      rewrite H3. reflexivity.
    + inversion Hb as [|? ? Hx Hb']; subst. inversion Hb' as [|? ? Hy _]; subst.
      destruct (byte_x x Hx) as (H1 & _ & _).
      destruct (byte_xy x y Hx Hy) as (H4 & H5 & H6).
      destruct (byte_y y Hy) as (H7 & H8 & H9).
      cbn [Base64.b64encode].
      rewrite a2b_val0 by exact H1. rewrite a2b_val1 by exact H4.
      rewrite a2b_val2 by exact H8.
      cbn -[Z.lor Z.shiftl Z.shiftr Z.land].
      rewrite H5, H6, H9, H7. simpl. now rewrite <- app_assoc.
    + inversion Hb as [|? ? Hx Hb']; subst. inversion Hb' as [|? ? Hy Hb'']; subst.
      inversion Hb'' as [|? ? Hz Hr]; subst.
      destruct (byte_x x Hx) as (H1 & _ & _).
      destruct (byte_xy x y Hx Hy) as (H4 & H5 & H6).
      destruct (byte_y y Hy) as (H7 & _ & _).
      destruct (byte_yz y z Hy Hz) as (H10 & H11 & H12).
      destruct (byte_z z Hz) as (H13 & H14).
      cbn [Base64.b64encode app].
      rewrite a2b_val0 by exact H1. rewrite a2b_val1 by exact H4.
      rewrite a2b_val2 by exact H10. rewrite a2b_val3 by exact H13.
      rewrite H5, H6, H11, H7, H12, H14.
      rewrite IH by (simpl in Hlen; lia || assumption).
      simpl. now rewrite <- !app_assoc.
Qed.

Lemma a2b_b64encode (b : bytes) : Forall is_byte b ->
  Base64.a2b_base64 (Base64.b64encode b) = Some b.
Proof.
  intros Hb. unfold Base64.a2b_base64.
  now rewrite (a2b_b64encode_acc (List.length b) b [] (le_n _) Hb).
Qed.

Lemma b64encode_length (n : nat) (b : bytes) : (List.length b <= n)%nat ->
  List.length (Base64.b64encode b) = (4 * ((List.length b + 2) / 3))%nat.
Proof.
  revert b. induction n as [|n IH]; intros b Hlen.
  - destruct b; [reflexivity | simpl in Hlen; lia].
  - destruct b as [|x [|y [|z r]]]; try reflexivity.
    cbn [Base64.b64encode]. rewrite length_app, IH by (simpl in Hlen; lia).
    cbn [List.length].
    replace (S (S (S (List.length r))) + 2)%nat with ((List.length r + 2) + 1 * 3)%nat
      by lia.
    rewrite Nat.div_add by lia. lia.
Qed.

Lemma b64encode_ascii (n : nat) (b : bytes) : (List.length b <= n)%nat ->
  Forall is_byte b -> Forall (fun c => 0 <= c < 128) (Base64.b64encode b).
Proof.
  assert (He : forall v, sextet v = true -> 0 <= Base64.enc_char v < 128)
    by (intros v Hv; apply sextet_range in Hv; apply (enc_char_ok v Hv)).
  assert (H61 : 0 <= 61 < 128) by lia.
  revert b. induction n as [|n IH]; intros b Hlen Hb.
  - destruct b; [constructor | simpl in Hlen; lia].
  - destruct b as [|x [|y [|z r]]].
    + constructor.
    + inversion Hb as [|? ? Hx _]; subst.
      destruct (byte_x x Hx) as (H1 & H2 & _).
      cbn [Base64.b64encode]. repeat apply Forall_cons; auto; try apply Forall_nil.
    + inversion Hb as [|? ? Hx Hb']; subst. inversion Hb' as [|? ? Hy _]; subst.
      destruct (byte_x x Hx) as (H1 & _ & _).
      destruct (byte_xy x y Hx Hy) as (H4 & _ & _).
      destruct (byte_y y Hy) as (_ & H8 & _).
      cbn [Base64.b64encode]. repeat apply Forall_cons; auto; try apply Forall_nil.
    + inversion Hb as [|? ? Hx Hb']; subst. inversion Hb' as [|? ? Hy Hb'']; subst.
      inversion Hb'' as [|? ? Hz Hr]; subst.
      destruct (byte_x x Hx) as (H1 & _ & _).
      destruct (byte_xy x y Hx Hy) as (H4 & _ & _).
      destruct (byte_yz y z Hy Hz) as (H10 & _ & _).
      destruct (byte_z z Hz) as (H13 & _).
      cbn [Base64.b64encode app]. repeat apply Forall_cons; auto; try apply Forall_nil.
      apply IH; [simpl in Hlen; lia | exact Hr].
Qed.

Lemma ascii_str_code (b : bytes) : Forall (fun c => 0 <= c < 128) b ->
  map Base64.code (list_ascii_of_string (ascii_str b)) = b.
Proof.
  intros Hb. unfold ascii_str. rewrite list_ascii_of_string_of_list_ascii, map_map.
  induction Hb as [|x b Hx Hb IH]; [reflexivity|]. cbn [map]. rewrite IH. f_equal.
  unfold Base64.code. rewrite nat_ascii_embedding by lia. lia.
Qed.

(** X2: a private key produced by [base64.b64encode] of a byte string [s]
    is accepted by [__init__], which keeps the public key and decodes the
    secret back to exactly [s]. *)
Theorem init_b64encode (pub : string) (s : bytes) :
  Forall is_byte s ->
  init pub (ascii_str (Base64.b64encode s)) = inr {| key := pub; secret := s |}.
Proof.
  intros Hs. unfold init, Base64.b64decode.
  pose proof (b64encode_ascii _ s (le_n _) Hs) as Ha.
  rewrite ascii_str_code by exact Ha.
  replace (existsb (fun c => 128 <=? c) (Base64.b64encode s)) with false.
  - rewrite a2b_b64encode by exact Hs. reflexivity.
  - symmetry. apply Bool.not_true_iff_false. rewrite existsb_exists.
    intros (c & Hin & Hc). rewrite Forall_forall in Ha. apply Ha in Hin. lia.
Qed.

Lemma be_bytes_shape (k : nat) (x : Z) :
  List.length (Sha512.be_bytes k x) = k /\ Forall is_byte (Sha512.be_bytes k x).
Proof.
  revert x. induction k as [|k IH]; intros x; [split; [reflexivity | constructor]|].
  cbn [Sha512.be_bytes]. destruct (IH (Z.shiftr x 8)) as [H1 H2].
  rewrite length_app, H1. cbn [List.length]. split; [lia|].
  apply Forall_app. split; [exact H2|]. constructor; [|constructor].
  unfold is_byte. change 255 with (Z.ones 8). rewrite Z.land_ones by lia.
  apply Z.mod_pos_bound. lia.
Qed.

Lemma round_length (st : list Z) (kw : Z * Z) :
  List.length (Sha512.round st kw) = List.length st.
Proof.
  unfold Sha512.round.
  destruct st as [|a [|b [|c [|d [|e [|f [|g [|h [|i st]]]]]]]]]; reflexivity.
Qed.

Lemma compress_length (hv : list Z) (blk : bytes) :
  List.length (Sha512.compress hv blk) = List.length hv.
Proof.
  unfold Sha512.compress. rewrite length_map, length_combine.
  assert (H : forall l st, List.length (fold_left Sha512.round l st) = List.length st).
  { induction l as [|kw l IH]; intros st; [reflexivity|].
    simpl. rewrite IH. apply round_length. }
  rewrite H. lia.
Qed.

Lemma digest_shape (m : bytes) :
  List.length (Sha512.digest m) = 64%nat /\ Forall is_byte (Sha512.digest m).
Proof.
  unfold Sha512.digest.
  assert (Hf : forall bs hv, List.length (fold_left Sha512.compress bs hv) = List.length hv).
  { induction bs as [|blk bs IH]; intros hv; [reflexivity|].
    simpl. rewrite IH. apply compress_length. }
  generalize (Hf (Sha512.blocks (List.length (Sha512.pad m)) (Sha512.pad m)) Sha512.H0).
  generalize (fold_left Sha512.compress
                (Sha512.blocks (List.length (Sha512.pad m)) (Sha512.pad m)) Sha512.H0).
  intros hv Hlen. change (List.length Sha512.H0) with 8%nat in Hlen.
  assert (G : forall l, List.length (flat_map (Sha512.be_bytes 8) l) = (8 * List.length l)%nat
                        /\ Forall is_byte (flat_map (Sha512.be_bytes 8) l)).
  { induction l as [|x l [IH1 IH2]]; [split; [reflexivity | constructor]|].
    cbn [flat_map]. destruct (be_bytes_shape 8 x) as [H1 H2].
    rewrite length_app, H1, IH1. cbn [List.length]. split; [lia|].
    apply Forall_app. auto. }
  destruct (G hv) as [G1 G2]. rewrite G1, Hlen. auto.
Qed.

(** X1: the [signature] header of every request is the 88-character
    base64 text of a 64-byte HMAC-SHA512 tag, and base64-decoding it gives
    back that tag of the secret over the UTF-8 payload. *)
Theorem signature_shape (sec : bytes) (path : string) (ts : Z) (data : option string) :
  let mac := Hmac.sha512 sec (Utf8.encode (payload_of path ts data)) in
  List.length mac = 64%nat
  /\ List.length (signature_of sec path ts data) = 88%nat
  /\ Base64.a2b_base64 (signature_of sec path ts data) = Some mac.
Proof.
  intros mac. destruct (digest_shape (map (Z.lxor 92) (Hmac.norm_key sec) ++
     Sha512.digest (map (Z.lxor 54) (Hmac.norm_key sec)
                      ++ Utf8.encode (payload_of path ts data)))) as [H1 H2].
  change (Sha512.digest _) with mac in H1, H2.
  unfold signature_of. fold mac.
  split; [exact H1|]. split.
  - rewrite (b64encode_length _ mac (le_n _)), H1. reflexivity.
  - now apply a2b_b64encode.
Qed.

Lemma chars_app (a b : string) :
  list_ascii_of_string (a ++ b) = (list_ascii_of_string a ++ list_ascii_of_string b)%list.
Proof. induction a as [|c a IH]; simpl; [reflexivity | now rewrite IH]. Qed.

Lemma scan_string_cons (c : ascii) (r : list ascii) :
  c <> "034"%char -> c <> "\"%char ->
  scan_string (c :: r) =
  if Json.code c <? 32 then None
  else match scan_string r with Some (t, r') => Some (c :: t, r') | None => None end.
Proof.
  intros H1 H2.
  destruct c as [[] [] [] [] [] [] [] []]; try reflexivity; exfalso;
    first [now apply H1 | now apply H2].
Qed.

Lemma scan_string_plain (s : string) (rest : list ascii) :
  json_plain s = true ->
  scan_string (list_ascii_of_string s ++ "034"%char :: rest)
  = Some (list_ascii_of_string s, rest).
Proof.
  induction s as [|c s IH]; intros H; [reflexivity|].
  unfold json_plain in H. cbn [list_ascii_of_string forallb] in H.
  apply andb_true_iff in H as [Hc Hs].
  unfold json_plain_char in Hc. apply andb_true_iff in Hc as [Hc H32].
  apply andb_true_iff in Hc as [Hq Hb].
  apply negb_true_iff, Ascii.eqb_neq in Hq. apply negb_true_iff, Ascii.eqb_neq in Hb.
  cbn [list_ascii_of_string app]. rewrite scan_string_cons by assumption.
  replace (Json.code c <? 32) with false by lia.
  rewrite IH by exact Hs. reflexivity.
Qed.

Lemma of_uint_acc_fold (d : Decimal.uint) (acc : positive) :
  Zpos (Pos.of_uint_acc d acc)
  = fold_left dstep (list_ascii_of_string (NilEmpty.string_of_uint d)) (Zpos acc).
Proof.
  revert acc. induction d; intros acc; cbn [Pos.of_uint_acc NilEmpty.string_of_uint
    list_ascii_of_string fold_left]; rewrite ?IHd; try reflexivity;
    f_equal; unfold dstep, Json.code; vm_compute nat_of_ascii; lia.
Qed.

Lemma digits_value_uint (d : Decimal.uint) :
  digits_value (list_ascii_of_string (NilEmpty.string_of_uint d)) = Z.of_uint d.
Proof.
  unfold digits_value, Z.of_uint. fold dstep.
  induction d; cbn [Pos.of_uint NilEmpty.string_of_uint list_ascii_of_string fold_left];
    try reflexivity; try exact IHd;
    cbn [Z.of_N]; rewrite of_uint_acc_fold; reflexivity.
Qed.

Lemma nzhead_le (d : Decimal.uint) :
  (Decimal.nb_digits (Decimal.nzhead d) <= Decimal.nb_digits d)%nat.
Proof. induction d; simpl; lia. Qed.

Lemma to_uint_head (p : positive) :
  Pos.to_uint p <> Decimal.Nil /\ forall u, Pos.to_uint p <> Decimal.D0 u.
Proof.
  split; [apply DecimalPos.Unsigned.to_uint_nonnil|].
  intros u Hu.
  pose proof (DecimalPos.Unsigned.to_of (Pos.to_uint p)) as H.
  rewrite DecimalPos.Unsigned.of_to in H.
  change (N.to_uint (N.pos p)) with (Pos.to_uint p) in H.
  rewrite Hu in H. unfold Decimal.unorm in H. cbn [Decimal.nzhead] in H.
  destruct (Decimal.nzhead u) eqn:E; try discriminate.
  - injection H as ->. apply (DecimalPos.Unsigned.to_uint_nonzero p). exact Hu.
  - injection H as <-. pose proof (nzhead_le u) as L.
    rewrite E in L. simpl in L. lia.
Qed.

Lemma span_digits_uint (d : Decimal.uint) (c : ascii) (r : list ascii) :
  In c [","; "}"; "]"]%char ->
  span_digits (list_ascii_of_string (NilEmpty.string_of_uint d) ++ c :: r)
  = (list_ascii_of_string (NilEmpty.string_of_uint d), c :: r).
Proof.
  intros Hc. induction d; cbn [NilEmpty.string_of_uint list_ascii_of_string app];
    try (destruct Hc as [<-|[<-|[<-|[]]]]; reflexivity);
    cbn [span_digits]; rewrite IHd; reflexivity.
Qed.

Lemma scan_int (z : Z) (f : nat) (c : ascii) (r : list ascii) :
  In c [","; "}"; "]"]%char ->
  scan_once (S f) (list_ascii_of_string (py_str_int z) ++ c :: r) = Some (JInt z, c :: r).
Proof.
  intros Hc. destruct z as [|p|p].
  - destruct Hc as [<-|[<-|[<-|[]]]]; reflexivity.
  - destruct (to_uint_head p) as [Hn H0].
    change (py_str_int (Zpos p)) with (NilEmpty.string_of_uint (Pos.to_uint p)).
    assert (Hz : Zpos p = Z.of_uint (Pos.to_uint p))
      by (unfold Z.of_uint; now rewrite DecimalPos.Unsigned.of_to).
    rewrite Hz. revert Hn H0. generalize (Pos.to_uint p). intros u Hn H0.
    rewrite <- digits_value_uint.
    destruct u as [|u|u|u|u|u|u|u|u|u|u]; try congruence;
      cbn -[span_digits digits_value]; rewrite span_digits_uint by exact Hc;
      destruct Hc as [<-|[<-|[<-|[]]]]; reflexivity.
  - destruct (to_uint_head p) as [Hn H0].
    change (py_str_int (Zneg p)) with (String "-" (NilEmpty.string_of_uint (Pos.to_uint p))).
    assert (Hz : Zneg p = - Z.of_uint (Pos.to_uint p))
      by (unfold Z.of_uint; now rewrite DecimalPos.Unsigned.of_to).
    rewrite Hz. revert Hn H0. generalize (Pos.to_uint p). intros u Hn H0.
    rewrite <- digits_value_uint.
    destruct u as [|u|u|u|u|u|u|u|u|u|u]; try congruence;
      cbn -[span_digits digits_value]; rewrite span_digits_uint by exact Hc;
      destruct Hc as [<-|[<-|[<-|[]]]]; reflexivity.
Qed.

Lemma py_str_int_head (z : Z) :
  exists c s, py_str_int z = String c s /\ In c ["-"; "0"; "1"; "2"; "3"; "4"; "5"; "6"; "7"; "8"; "9"]%char.
Proof.
  destruct z as [|p|p].
  - eexists _, _. split; [reflexivity | simpl; tauto].
  - destruct (to_uint_head p) as [Hn H0].
    change (py_str_int (Zpos p)) with (NilEmpty.string_of_uint (Pos.to_uint p)).
    revert Hn H0. generalize (Pos.to_uint p). intros u Hn H0.
    destruct u; try congruence; eexists _, _; (split; [reflexivity | simpl; tauto]).
  - eexists _, _. split; [reflexivity | simpl; tauto].
Qed.

Lemma skip_ws_int (z : Z) (rest : list ascii) :
  skip_ws (list_ascii_of_string (py_str_int z) ++ rest)
  = (list_ascii_of_string (py_str_int z) ++ rest)%list.
Proof.
  destruct (py_str_int_head z) as (c & s & -> & Hc).
  simpl in Hc. repeat destruct Hc as [<-|Hc]; try reflexivity. destruct Hc.
Qed.

Lemma parse_elems_eq (f : nat) (s : list ascii) (acc : list json) :
  parse_elems (S f) s acc =
  match scan_once f s with
  | None => None
  | Some (v, r) =>
      match skip_ws r with
      | "]"%char :: r' => Some (JArr (rev (v :: acc)), r')
      | ","%char :: r' => parse_elems f (skip_ws r') (v :: acc)
      | _ => None
      end
  end.
Proof. reflexivity. Qed.

Lemma concat_ints_head (y : Z) (l : list Z) :
  exists t, String.concat ", " (map py_str_int (y :: l)) = (py_str_int y ++ t)%string.
Proof.
  destruct l as [|z l].
  - exists EmptyString. simpl. now rewrite str_app_nil_r.
  - eexists. reflexivity.
Qed.

Lemma parse_elems_ints (l : list Z) (x : Z) (F : nat) (acc : list json) (rest : list ascii) :
  (List.length l + 2 <= F)%nat ->
  parse_elems F (list_ascii_of_string (String.concat ", " (map py_str_int (x :: l)))
                 ++ "]"%char :: rest) acc
  = Some (JArr (rev acc ++ map JInt (x :: l)), rest).
Proof.
  revert x F acc. induction l as [|y l IH]; intros x F acc HF.
  - destruct F as [|[|F]]; [simpl in HF; lia | simpl in HF; lia|].
    cbn [map String.concat]. rewrite parse_elems_eq, scan_int by (simpl; tauto).
    reflexivity.
  - destruct F as [|[|F]]; [simpl in HF; lia | simpl in HF; lia|].
    change (String.concat ", " (map py_str_int (x :: y :: l)))
      with (py_str_int x ++ ", " ++ String.concat ", " (map py_str_int (y :: l)))%string.
    rewrite !chars_app, <- app_assoc. cbn [list_ascii_of_string app].
    rewrite parse_elems_eq, scan_int by (simpl; tauto).
    cbn [skip_ws is_ws].
    destruct (concat_ints_head y l) as [t Ht].
    rewrite Ht, chars_app, <- app_assoc, skip_ws_int, app_assoc, <- chars_app, <- Ht.
    rewrite IH by (simpl in HF |- *; lia).
    simpl. now rewrite <- app_assoc.
Qed.

Lemma py_repr_length (l : list Z) :
  (List.length l + 2 <= String.length (py_repr_int_list l))%nat.
Proof.
  unfold py_repr_int_list.
  assert (H : forall l, (List.length l <= String.length (String.concat ", " (map py_str_int l)))%nat).
  { induction l0 as [|x l0 IH]; [simpl; lia|].
    destruct (py_str_int_head x) as (c & s & Hx & _).
    destruct l0 as [|y l0].
    - simpl. rewrite Hx. simpl. lia.
    - change (String.concat ", " (map py_str_int (x :: y :: l0)))
        with (py_str_int x ++ ", " ++ String.concat ", " (map py_str_int (y :: l0)))%string.
      rewrite !str_length_app, Hx. simpl in IH |- *. lia. }
  simpl. rewrite str_length_app. specialize (H l). simpl. lia.
Qed.

Lemma scan_once_arr (F : nat) (s : list ascii) :
  skip_ws s = s -> (exists c s', s = c :: s' /\ c <> "]"%char) ->
  scan_once (S F) ("["%char :: s) = parse_elems F s [].
Proof.
  intros Hs (c & s' & -> & Hc). cbn [scan_once]. rewrite Hs.
  destruct c as [[] [] [] [] [] [] [] []]; try reflexivity; contradiction.
Qed.

Lemma scan_int_list (l : list Z) (F : nat) (rest : list ascii) :
  (List.length l + 3 <= F)%nat ->
  scan_once F (list_ascii_of_string (py_repr_int_list l) ++ rest)
  = Some (JArr (map JInt l), rest).
Proof.
  intros HF. destruct F as [|F]; [lia|].
  unfold py_repr_int_list. rewrite !chars_app, <- !app_assoc.
  cbn [list_ascii_of_string app].
  destruct l as [|x l]; [reflexivity|].
  destruct (concat_ints_head x l) as [t Ht].
  rewrite scan_once_arr.
  - apply parse_elems_ints. simpl in HF. lia.
  - rewrite Ht, chars_app, <- app_assoc. apply skip_ws_int.
  - rewrite Ht, chars_app, <- app_assoc.
    destruct (py_str_int_head x) as (c & s & Hx & Hc). rewrite Hx.
    exists c. eexists. split; [reflexivity|].
    simpl in Hc. intros ->. repeat destruct Hc as [Hc|Hc]; try discriminate Hc. exact Hc.
Qed.

Lemma render_members_eq (k : string) (v : json) (ms : list (string * json)) :
  render_members k v ms =
  (k ++ String dq_char (String ":" (render_value v ++
    match ms with
    | [] => "}"
    | (k', v') :: ms' => String "," (String dq_char (render_members k' v' ms'))
    end)))%string.
Proof. destruct ms; reflexivity. Qed.

Lemma scan_value (v : json) (f : nat) (c : ascii) (r : list ascii) :
  simple_value v = true -> In c [","; "}"]%char ->
  scan_once (S f) (list_ascii_of_string (render_value v) ++ c :: r) = Some (v, c :: r).
Proof.
  intros Hv Hc. destruct v as [| | z | | s | |]; try discriminate.
  - apply scan_int. simpl in Hc |- *. tauto.
  - cbn [render_value list_ascii_of_string app]. rewrite chars_app, <- app_assoc.
    cbn [list_ascii_of_string app scan_once].
    rewrite scan_string_plain by exact Hv.
    now rewrite string_of_list_ascii_of_string.
Qed.

Lemma skip_ws_value (v : json) (r : list ascii) :
  simple_value v = true ->
  skip_ws (list_ascii_of_string (render_value v) ++ r)
  = (list_ascii_of_string (render_value v) ++ r)%list.
Proof.
  intros Hv. destruct v as [| | z | | s | |]; try discriminate.
  - apply skip_ws_int.
  - reflexivity.
Qed.

Lemma parse_members_eq (f : nat) (s : list ascii) (acc : list (string * json)) :
  parse_members (S f) s acc =
  match scan_string s with
  | None => None
  | Some (k, r) =>
      match skip_ws r with
      | ":"%char :: r1 =>
          match scan_once f (skip_ws r1) with
          | None => None
          | Some (v, r2) =>
              let acc' := (string_of_list_ascii k, v) :: acc in
              match skip_ws r2 with
              | "}"%char :: r3 => Some (JObj (rev acc'), r3)
              | ","%char :: r3 =>
                  match skip_ws r3 with
                  | "034"%char :: r4 => parse_members f r4 acc'
                  | _ => None
                  end
              | _ => None
              end
          end
      | _ => None
      end
  end.
Proof. reflexivity. Qed.

Lemma parse_members_render (ms : list (string * json)) (k : string) (v : json)
    (acc : list (string * json)) (F : nat) (rest : list ascii) :
  json_plain k = true -> simple_value v = true -> forallb simple_member ms = true ->
  (List.length ms + 2 <= F)%nat ->
  parse_members F (list_ascii_of_string (render_members k v ms) ++ rest) acc
  = Some (JObj (rev acc ++ (k, v) :: ms), rest).
Proof.
  revert k v acc F. induction ms as [|[k' v'] ms IH]; intros k v acc F Hk Hv Hms HF;
    (destruct F as [|[|F]]; [simpl in HF; lia | simpl in HF; lia|]);
    rewrite render_members_eq; rewrite chars_app, <- app_assoc;
    cbn [list_ascii_of_string app]; rewrite chars_app, <- app_assoc;
    rewrite parse_members_eq, scan_string_plain by exact Hk;
    cbn [skip_ws is_ws]; rewrite skip_ws_value by exact Hv.
  - cbn [list_ascii_of_string app]. rewrite scan_value by (simpl; tauto || exact Hv).
    cbn [skip_ws is_ws]. rewrite string_of_list_ascii_of_string. reflexivity.
  - cbn [list_ascii_of_string app]. rewrite scan_value by (simpl; tauto || exact Hv).
    cbn [skip_ws is_ws]. rewrite string_of_list_ascii_of_string.
    cbn [forallb] in Hms. apply andb_true_iff in Hms as [Hkv Hms].
    unfold simple_member in Hkv. apply andb_true_iff in Hkv as [Hk' Hv']. cbn [fst snd] in *.
    unfold dq_char; cbn [is_ws]. rewrite IH by (simpl in HF |- *; first [exact Hk' | exact Hv' | exact Hms | lia]).
    simpl. now rewrite <- app_assoc.
Qed.

Lemma chars_length (s : string) : List.length (list_ascii_of_string s) = String.length s.
Proof. induction s; simpl; auto. Qed.

Lemma render_members_length (k : string) (v : json) (ms : list (string * json)) :
  (List.length ms <= String.length (render_members k v ms))%nat.
Proof.
  revert k v. induction ms as [|[k' v'] ms IH]; intros k v; [simpl; lia|].
  rewrite render_members_eq. rewrite str_length_app. cbn [String.length].
  rewrite str_length_app. cbn [String.length]. specialize (IH k' v'). simpl. lia.
Qed.

Lemma loads_render (k : string) (v : json) (ms : list (string * json)) :
  json_plain k = true -> simple_value v = true -> forallb simple_member ms = true ->
  Json.loads (String "{" (String dq_char (render_members k v ms)))
  = Some (JObj ((k, v) :: ms)).
Proof.
  intros Hk Hv Hms. unfold Json.loads.
  cbn [list_ascii_of_string List.length].
  pose proof (render_members_length k v ms) as L. rewrite <- chars_length in L.
  unfold dq_char. cbn [skip_ws is_ws scan_once].
  assert (H := parse_members_render ms k v [] (S (S (List.length
                 (list_ascii_of_string (render_members k v ms))))) [] Hk Hv Hms ltac:(lia)).
  rewrite app_nil_r in H. rewrite H. reflexivity.
Qed.

Lemma parse_members_one (k text : string) (v : json) (f : nat)
    (acc : list (string * json)) (rest : list ascii) :
  json_plain k = true ->
  skip_ws (list_ascii_of_string text ++ "}"%char :: rest)
    = (list_ascii_of_string text ++ "}"%char :: rest)%list ->
  scan_once f (list_ascii_of_string text ++ "}"%char :: rest) = Some (v, "}"%char :: rest) ->
  parse_members (S f)
    (list_ascii_of_string (k ++ String dq_char (String ":" (text ++ "}"))) ++ rest) acc
  = Some (JObj (rev acc ++ [(k, v)]), rest).
Proof.
  intros Hk Hws Hv. rewrite chars_app, <- app_assoc. cbn [list_ascii_of_string app].
  rewrite chars_app, <- app_assoc. cbn [list_ascii_of_string app].
  rewrite parse_members_eq. unfold dq_char. rewrite scan_string_plain by exact Hk.
  cbn [skip_ws is_ws]. rewrite Hws, Hv. cbn [skip_ws is_ws].
  rewrite string_of_list_ascii_of_string. reflexivity.
Qed.

Lemma cancel_order_data_eq (l : list Z) :
  cancel_order_data l
  = String "{" (String dq_char ("orderIds" ++ String dq_char
                                  (String ":" (py_repr_int_list l ++ "}"))))%string.
Proof. reflexivity. Qed.

Lemma cancel_order_data_json (l : list Z) :
  Json.loads (cancel_order_data l) = Some (JObj [("orderIds"%string, JArr (map JInt l))]).
Proof.
  rewrite cancel_order_data_eq. unfold Json.loads.
  cbn [list_ascii_of_string List.length]. unfold dq_char. cbn [skip_ws is_ws scan_once].
  pose proof (py_repr_length l) as L.
  rewrite <- (app_nil_r (list_ascii_of_string ("orderIds" ++ _))).
  rewrite (parse_members_one _ _ (JArr (map JInt l))).
  - reflexivity.
  - reflexivity.
  - reflexivity.
  - apply scan_int_list. rewrite ?app_nil_r, chars_length, !str_length_app. cbn [String.length]. rewrite ?str_length_app. cbn [String.length]. lia.
Qed.

Lemma create_order_data_eq (instrument currency : string) (price volume : Z)
    (order_side order_type : string) :
  create_order_data instrument currency price volume order_side order_type
  = String "{" (String dq_char (render_members "currency" (JStr currency)
      [("instrument", JStr instrument); ("price", JInt price); ("volume", JInt volume);
       ("orderSide", JStr order_side); ("ordertype", JStr order_type);
       ("clientRequestId", JStr "NA")]))%string.
Proof.
  unfold create_order_data. cbn. rewrite ?str_app_assoc. cbn. rewrite ?str_app_assoc. reflexivity.
Qed.

Lemma order_history_data_eq (instrument currency : string) (limit since_id : Z) :
  order_history_data instrument currency limit since_id
  = String "{" (String dq_char (render_members "currency" (JStr currency)
      [("instrument", JStr instrument); ("limit", JInt limit); ("since", JInt since_id)]))%string.
Proof.
  unfold order_history_data. cbn. rewrite ?str_app_assoc. cbn. rewrite ?str_app_assoc. reflexivity.
Qed.

Lemma withdraw_crypto_data_eq (amount : Z) (address currency : string) :
  withdraw_crypto_data amount address currency
  = String "{" (String dq_char (render_members "amount" (JInt amount)
      [("address", JStr address); ("currency", JStr currency)]))%string.
Proof.
  unfold withdraw_crypto_data. cbn. rewrite ?str_app_assoc. cbn. rewrite ?str_app_assoc. reflexivity.
Qed.

Lemma withdraw_eft_data_eq (account_name account_number bank_name bsb_number : string)
    (amount : Z) (currency : string) :
  withdraw_eft_data account_name account_number bank_name bsb_number amount currency
  = String "{" (String dq_char (render_members "accountName" (JStr account_name)
      [("accountNumber", JStr account_number); ("bankName", JStr bank_name);
       ("bsbNumber", JStr bsb_number); ("amount", JInt amount);
       ("currency", JStr currency)]))%string.
Proof.
  unfold withdraw_eft_data. cbn. rewrite ?str_app_assoc. cbn. rewrite ?str_app_assoc. reflexivity.
Qed.

Lemma create_order_data_loads (instrument currency : string) (price volume : Z)
    (order_side order_type : string) :
  json_plain instrument = true -> json_plain currency = true ->
  json_plain order_side = true -> json_plain order_type = true ->
  Json.loads (create_order_data instrument currency price volume order_side order_type)
  = Some (JObj [("currency"%string, JStr currency); ("instrument"%string, JStr instrument);
                ("price"%string, JInt price); ("volume"%string, JInt volume);
                ("orderSide"%string, JStr order_side); ("ordertype"%string, JStr order_type);
                ("clientRequestId"%string, JStr "NA"%string)]).
Proof.
  intros Hi Hc Hs Ht. rewrite create_order_data_eq. apply loads_render.
  - reflexivity.
  - exact Hc.
  - unfold simple_member, simple_value; cbn [forallb fst snd]. rewrite Hi, Hs, Ht. reflexivity.
Qed.

Lemma order_history_data_loads (instrument currency : string) (limit since_id : Z) :
  json_plain instrument = true -> json_plain currency = true ->
  Json.loads (order_history_data instrument currency limit since_id)
  = Some (history_fields instrument currency limit since_id).
Proof.
  intros Hi Hc. rewrite order_history_data_eq. apply loads_render.
  - reflexivity.
  - exact Hc.
  - unfold simple_member, simple_value; cbn [forallb fst snd]. rewrite Hi. reflexivity.
Qed.

Lemma withdraw_crypto_data_loads (amount : Z) (address currency : string) :
  json_plain address = true -> json_plain currency = true ->
  Json.loads (withdraw_crypto_data amount address currency)
  = Some (JObj [("amount"%string, JInt amount); ("address"%string, JStr address);
                ("currency"%string, JStr currency)]).
Proof.
  intros Ha Hc. rewrite withdraw_crypto_data_eq. apply loads_render.
  - reflexivity.
  - reflexivity.
  - unfold simple_member, simple_value; cbn [forallb fst snd]. rewrite Ha, Hc. reflexivity.
Qed.

Lemma withdraw_eft_data_loads (account_name account_number bank_name bsb_number : string)
    (amount : Z) (currency : string) :
  json_plain account_name = true -> json_plain account_number = true ->
  json_plain bank_name = true -> json_plain bsb_number = true ->
  json_plain currency = true ->
  Json.loads (withdraw_eft_data account_name account_number bank_name bsb_number
                amount currency)
  = Some (JObj [("accountName"%string, JStr account_name);
                ("accountNumber"%string, JStr account_number);
                ("bankName"%string, JStr bank_name); ("bsbNumber"%string, JStr bsb_number);
                ("amount"%string, JInt amount); ("currency"%string, JStr currency)]).
Proof.
  intros H1 H2 H3 H4 H5. rewrite withdraw_eft_data_eq. apply loads_render.
  - reflexivity.
  - exact H1.
  - unfold simple_member, simple_value; cbn [forallb fst snd].
    rewrite H2, H3, H4, H5. reflexivity.
Qed.

Lemma request_sends_get (api : string) (c : client) (path : string) (w : world) :
  sends_get api c (request api c path None) w path.
Proof.
  eexists. rewrite request_run. cbn [snd sent].
  split; [reflexivity|]. split; [reflexivity|]. split; [reflexivity|].
  split; [reflexivity|]. do 5 right. left. reflexivity.
Qed.

Lemma request_sends_post (api : string) (c : client) (path d : string) (v : json)
    (w : world) :
  Json.loads d = Some v -> sends_post api c (request api c path (Some d)) w path v.
Proof.
  intros Hv. exists d. eexists. rewrite request_run. cbn [snd sent].
  split; [reflexivity|]. split; [reflexivity|]. split; [reflexivity|].
  split; [reflexivity|]. split; [do 5 right; left; reflexivity|]. exact Hv.
Qed.

Lemma getitem_world (t : json) (k : string) (w : world) : snd (getitem t k w) = w.
Proof.
  unfold getitem. destruct t; try reflexivity.
  destruct (Json.lookup _ _); reflexivity.
Qed.

Lemma balance_item_world (currency : string) (b : json) (w : world) :
  snd (balance_item currency b w) = w.
Proof.
  unfold balance_item, bind at 1.
  pose proof (getitem_world b "currency" w) as G.
  destruct (getitem b "currency" w) as [[e|cur] w1]; cbn [snd] in G |- *; subst; [reflexivity|].
  destruct (py_eq_str cur currency); [|reflexivity].
  unfold bind. pose proof (getitem_world b "balance" w) as G.
  destruct (getitem b "balance" w) as [[e|v] w2]; cbn [snd] in G |- *; subst; reflexivity.
Qed.

Lemma comprehension_world (currency : string) (items : list json) (w : world) :
  snd (comprehension (balance_item currency) items w) = w.
Proof.
  revert w. induction items as [|b items IH]; intros w; [reflexivity|].
  cbn [comprehension]. unfold bind at 1.
  pose proof (balance_item_world currency b w) as G.
  destruct (balance_item currency b w) as [[e|o] w1]; cbn [snd] in G |- *; subst;
    [reflexivity|].
  unfold bind. specialize (IH w).
  destruct (comprehension (balance_item currency) items w) as [[e|rest] w2];
    cbn [snd] in IH |- *; subst; reflexivity.
Qed.

(** [balance] on the value [balances()] returned. *)
Lemma balance_unfold (api : string) (c : client) (currency : string) (w : world) :
  balance api c currency w =
  match balances api c w with
  | (inl e, w1) => (inl e, w1)
  | (inr bs, w1) =>
      (bind (py_iter bs) (fun items =>
         bind (comprehension (balance_item currency) items) (fun bal =>
           match bal with [] => ret (JInt 0) | v :: _ => ret v end))) w1
  end.
Proof. reflexivity. Qed.

Lemma old_request_none (api : string) (c : client) (path : string) (w : world) :
  Interface.request api c path None w = request api c path None w.
Proof. reflexivity. Qed.

(** ** Further properties of the code *)

Lemma init_b64encode_witness :
  Forall is_byte [65; 66; 67]
  /\ init "pk"%string (ascii_str (Base64.b64encode [65; 66; 67]))
     = inr {| key := "pk"%string; secret := [65; 66; 67] |}.
Proof.
  assert (H : Forall is_byte [65; 66; 67])
    by (repeat apply Forall_cons; try apply Forall_nil; unfold is_byte; lia).
  split; [exact H | apply (init_b64encode "pk"%string [65; 66; 67]); exact H].
Defined.

(** X3: when the server answers [request]'s one signed request with a 2xx
    status or a status of 400 or above, the clock has been read once and
    exactly that request, built from the reading, has been sent; a 2xx
    answer whose text decodes to [v] gives [v], and a status of 400 or
    above raises [HTTPError] with that status. *)
Theorem request_outcomes :
  forall (api : string) (c : client) (path : string) (data : option string) (w : world),
  let r := request_of api c path data (clock w (reads w)) in
  (forall st txt, net w (List.length (sent w)) r = Reply st txt ->
     (200 <= st < 300 \/ 400 <= st) ->
     snd (request api c path data w)
     = {| clock := clock w; reads := S (reads w); net := net w; sent := sent w ++ [r] |})
  /\ (forall st txt v, net w (List.length (sent w)) r = Reply st txt ->
        200 <= st < 300 -> Json.loads txt = Some v ->
        fst (request api c path data w) = inr v)
  /\ (forall st txt, net w (List.length (sent w)) r = Reply st txt ->
        400 <= st -> fst (request api c path data w) = inl (HTTPError st)).
Proof.
  intros api c path data w r. rewrite request_run. fold r. cbn [fst snd].
  split; [intros st txt _ _; reflexivity|]. split.
  - intros st txt v Hn Hs Hv. rewrite Hn.
    replace ((200 <=? st) && (st <? 300)) with true by lia. rewrite Hv. reflexivity.
  - intros st txt Hn Hs. rewrite Hn.
    replace ((200 <=? st) && (st <? 300)) with false by lia. reflexivity.
Qed.

Lemma request_outcomes_witness :
  fst (request demo_api demo_client "/account/balance"%string None
         (demo_world 1000 401 (dquote "{'success':false}"))) = inl (HTTPError 401).
Proof.
  destruct (request_outcomes demo_api demo_client "/account/balance"%string None
              (demo_world 1000 401 (dquote "{'success':false}"))) as (_ & _ & H).
  apply (H 401 (dquote "{'success':false}")); [reflexivity | lia].
Defined.

(** X4: each read operation sends one signed GET, without body, of its own
    path: [balances], [fee], [market_tick], [market_orderbook],
    [market_trades] (with and without [since_id]) and [transfer_history]. *)
Theorem read_requests :
  forall (api : string) (c : client) (i cu : string) (n : Z) (w : world),
  sends_get api c (balances api c) w "/account/balance"%string
  /\ sends_get api c (fee api c i cu) w ("/account/" ++ i ++ "/" ++ cu ++ "/tradingfee")%string
  /\ sends_get api c (market_tick api c i cu) w ("/market/" ++ i ++ "/" ++ cu ++ "/tick")%string
  /\ sends_get api c (market_orderbook api c i cu) w
       ("/market/" ++ i ++ "/" ++ cu ++ "/orderbook")%string
  /\ sends_get api c (market_trades api c i cu None) w
       ("/market/" ++ i ++ "/" ++ cu ++ "/trades")%string
  /\ sends_get api c (market_trades api c i cu (Some n)) w
       ("/market/" ++ i ++ "/" ++ cu ++ "/trades?since=" ++ py_str_int n)%string
  /\ sends_get api c (transfer_history api c) w "/fundtransfer/history"%string.
Proof.
  intros api c i cu n w.
  split; [apply request_sends_get|]. split; [apply request_sends_get|].
  split; [apply request_sends_get|]. split; [apply request_sends_get|].
  split; [|split; [apply request_sends_get | apply request_sends_get]].
  unfold market_trades.
  pose proof (request_sends_get api c ("/market/" ++ i ++ "/" ++ cu ++ "/trades" ++ "")%string w)
    as G. rewrite str_app_nil_r in G at 2. exact G.
Qed.

(** X5: for an instrument, a currency, a side and a type without quote,
    backslash or control character, [create_order] sends one signed POST to
    [/order/create] whose body decodes to the seven fields of the order,
    with [price] and [volume] as JSON integers and [clientRequestId] "NA". *)
Theorem create_order_request :
  forall (api : string) (c : client) (i cu : string) (p v : Z) (s t : string) (w : world),
  json_plain i = true -> json_plain cu = true ->
  json_plain s = true -> json_plain t = true ->
  sends_post api c (create_order api c i cu p v s t) w "/order/create"%string
    (order_fields i cu p v s t).
Proof.
  intros api c i cu p v s t w Hi Hc Hs Ht.
  apply request_sends_post. now apply create_order_data_loads.
Qed.

Lemma create_order_request_witness :
  sends_post demo_api demo_client
    (create_order demo_api demo_client "ETH" "AUD" 250000000 100000000 "Ask" "Limit")
    (demo_world 1000 200 "{}") "/order/create"%string
    (order_fields "ETH" "AUD" 250000000 100000000 "Ask" "Limit").
Proof. apply create_order_request; reflexivity. Defined.

(** X6: [market_bid] and [market_ask] send [create_order]'s request with
    price 0 and type "Market"; [limit_bid] and [limit_ask] send the given
    price with type "Limit"; the side is "Bid" or "Ask" accordingly. *)
Theorem order_shortcuts :
  forall (api : string) (c : client) (i cu : string) (p v : Z) (w : world),
  json_plain i = true -> json_plain cu = true ->
  sends_post api c (market_bid api c i cu v) w "/order/create"%string
    (order_fields i cu 0 v "Bid" "Market")
  /\ sends_post api c (market_ask api c i cu v) w "/order/create"%string
    (order_fields i cu 0 v "Ask" "Market")
  /\ sends_post api c (limit_bid api c i cu p v) w "/order/create"%string
    (order_fields i cu p v "Bid" "Limit")
  /\ sends_post api c (limit_ask api c i cu p v) w "/order/create"%string
    (order_fields i cu p v "Ask" "Limit").
Proof.
  intros api c i cu p v w Hi Hc.
  repeat split; apply request_sends_post; apply create_order_data_loads;
    first [exact Hi | exact Hc | reflexivity].
Qed.

Lemma order_shortcuts_witness :
  sends_post demo_api demo_client (market_bid demo_api demo_client "BTC" "AUD" 5)
    (demo_world 1000 200 "{}") "/order/create"%string
    (order_fields "BTC" "AUD" 0 5 "Bid" "Market").
Proof.
  destruct (order_shortcuts demo_api demo_client "BTC" "AUD" 0 5
              (demo_world 1000 200 "{}") eq_refl eq_refl) as (H & _).
  exact H.
Defined.

(** X7: for every list of order ids, [cancel_order] and [order_detail] each
    send one signed POST, to [/order/cancel] and [/order/detail], whose
    body decodes to [{"orderIds": ids}] with the ids as JSON integers. *)
Theorem order_ids_requests :
  forall (api : string) (c : client) (ids : list Z) (w : world),
  sends_post api c (cancel_order api c ids) w "/order/cancel"%string
    (JObj [("orderIds"%string, JArr (map JInt ids))])
  /\ sends_post api c (order_detail api c ids) w "/order/detail"%string
    (JObj [("orderIds"%string, JArr (map JInt ids))]).
Proof.
  intros api c ids w. split; apply request_sends_post; apply cancel_order_data_json.
Qed.

(** X8: [order_history], [order_open_history] and [order_trade_history]
    send one signed POST each, to [/order/history], [/order/open] and
    [/order/trade/history], with the same body: currency, instrument,
    [limit] and [since] (integers), for a plain instrument and currency. *)
Theorem order_history_requests :
  forall (api : string) (c : client) (i cu : string) (limit since_id : Z) (w : world),
  json_plain i = true -> json_plain cu = true ->
  sends_post api c (order_history api c i cu limit since_id) w "/order/history"%string
    (history_fields i cu limit since_id)
  /\ sends_post api c (order_open_history api c i cu limit since_id) w "/order/open"%string
    (history_fields i cu limit since_id)
  /\ sends_post api c (order_trade_history api c i cu limit since_id) w
    "/order/trade/history"%string (history_fields i cu limit since_id).
Proof.
  intros api c i cu limit since_id w Hi Hc.
  repeat split; apply request_sends_post; now apply order_history_data_loads.
Qed.

Lemma order_history_requests_witness :
  sends_post demo_api demo_client (order_open_history demo_api demo_client "BTC" "AUD" 10 0)
    (demo_world 1000 200 "[]") "/order/open"%string (history_fields "BTC" "AUD" 10 0).
Proof.
  destruct (order_history_requests demo_api demo_client "BTC" "AUD" 10 0
              (demo_world 1000 200 "[]") eq_refl eq_refl) as (_ & H & _).
  exact H.
Defined.

(** X9: with plain text fields, [withdraw_crypto] sends one signed POST to
    [/fundtransfer/withdrawCrypto] with body [{amount, address, currency}],
    and [withdraw_eft] one to [/fundtransfer/withdrawEFT] with body
    [{accountName, accountNumber, bankName, bsbNumber, amount, currency}]. *)
Theorem withdraw_requests :
  forall (api : string) (c : client) (amount : Z) (address currency : string)
         (an anum bn bsb : string) (w : world),
  json_plain address = true -> json_plain currency = true ->
  json_plain an = true -> json_plain anum = true ->
  json_plain bn = true -> json_plain bsb = true ->
  sends_post api c (withdraw_crypto api c amount address currency) w
    "/fundtransfer/withdrawCrypto"%string
    (JObj [("amount"%string, JInt amount); ("address"%string, JStr address);
           ("currency"%string, JStr currency)])
  /\ sends_post api c (withdraw_eft api c an anum bn bsb amount currency) w
    "/fundtransfer/withdrawEFT"%string
    (JObj [("accountName"%string, JStr an); ("accountNumber"%string, JStr anum);
           ("bankName"%string, JStr bn); ("bsbNumber"%string, JStr bsb);
           ("amount"%string, JInt amount); ("currency"%string, JStr currency)]).
Proof.
  intros api c amount address currency an anum bn bsb w Ha Hc H1 H2 H3 H4.
  split; apply request_sends_post.
  - now apply withdraw_crypto_data_loads.
  - now apply withdraw_eft_data_loads.
Qed.

Lemma withdraw_requests_witness :
  sends_post demo_api demo_client
    (withdraw_eft demo_api demo_client "J Smith" "12345678" "Bank" "062-000" 500 "AUD")
    (demo_world 1000 200 "{}") "/fundtransfer/withdrawEFT"%string
    (JObj [("accountName"%string, JStr "J Smith"); ("accountNumber"%string, JStr "12345678");
           ("bankName"%string, JStr "Bank"); ("bsbNumber"%string, JStr "062-000");
           ("amount"%string, JInt 500); ("currency"%string, JStr "AUD")]).
Proof.
  destruct (withdraw_requests demo_api demo_client 500 "1BoatSLRHtKNngkdXEeobR76b53LETtpyT" "AUD"
              "J Smith" "12345678" "Bank" "062-000" (demo_world 1000 200 "{}")
              eq_refl eq_refl eq_refl eq_refl eq_refl eq_refl) as (_ & H).
  exact H.
Defined.

(** X10: [best_ask] and [best_bid] make exactly the request of
    [market_tick] and then index its answer: an object gives its
    "bestAsk" (resp. "bestBid") member or [KeyError] when absent, a list
    gives [TypeError], and an error of [market_tick] is raised unchanged. *)
Theorem best_price_lookup :
  forall (api : string) (c : client) (i cu : string) (w : world),
  snd (best_ask api c i cu w) = snd (market_tick api c i cu w)
  /\ snd (best_bid api c i cu w) = snd (market_tick api c i cu w)
  /\ (forall m, fst (market_tick api c i cu w) = inr (JObj m) ->
        fst (best_ask api c i cu w)
          = match Json.lookup m "bestAsk" with Some x => inr x | None => inl KeyError end
        /\ fst (best_bid api c i cu w)
          = match Json.lookup m "bestBid" with Some x => inr x | None => inl KeyError end)
  /\ (forall l, fst (market_tick api c i cu w) = inr (JArr l) ->
        fst (best_ask api c i cu w) = inl TypeError
        /\ fst (best_bid api c i cu w) = inl TypeError)
  /\ (forall e, fst (market_tick api c i cu w) = inl e ->
        fst (best_ask api c i cu w) = inl e /\ fst (best_bid api c i cu w) = inl e).
Proof.
  intros api c i cu w.
  change (best_ask api c i cu w) with
    (match market_tick api c i cu w with
     | (inl e, w') => (inl e, w') | (inr t, w') => getitem t "bestAsk" w' end).
  change (best_bid api c i cu w) with
    (match market_tick api c i cu w with
     | (inl e, w') => (inl e, w') | (inr t, w') => getitem t "bestBid" w' end).
  destruct (market_tick api c i cu w) as [[e|t] w1]; cbn [fst snd].
  - split; [reflexivity|]. split; [reflexivity|].
    split; [intros m Hm; discriminate|]. split; [intros l Hl; discriminate|].
    intros e' He. rewrite He. split; reflexivity.
  - split; [apply getitem_world|]. split; [apply getitem_world|].
    split; [|split].
    + intros m Hm. cbn [fst] in Hm. injection Hm as ->. unfold getitem.
      split; destruct (Json.lookup _ _); reflexivity.
    + intros l Hl. cbn [fst] in Hl. injection Hl as ->. split; reflexivity.
    + intros e He. discriminate.
Qed.

Lemma best_price_lookup_witness :
  fst (best_ask demo_api demo_client "BTC" "AUD"
         (demo_world 1000 200 (dquote "{'bestBid':1}"))) = inl KeyError.
Proof.
  destruct (best_price_lookup demo_api demo_client "BTC" "AUD"
              (demo_world 1000 200 (dquote "{'bestBid':1}"))) as (_ & _ & H & _).
  exact (proj1 (H [("bestBid"%string, JInt 1)] ltac:(vm_compute; reflexivity))).
Defined.

Lemma py_iter_world (v : json) (w : world) : snd (py_iter v w) = w.
Proof. destruct v; reflexivity. Qed.

(** X11: [balance] makes only the request of [balances] and fails the way
    its comprehension does: an error of [balances] is raised unchanged, an
    empty list or object answer gives 0, a non-empty object (iterated by
    its keys) or a first item that is not an object gives [TypeError], a
    first object without "currency" gives [KeyError], and a scalar answer
    gives [TypeError]. *)
Theorem balance_edge_cases :
  forall (api : string) (c : client) (cur : string) (w : world),
  snd (balance api c cur w) = snd (balances api c w)
  /\ (forall e, fst (balances api c w) = inl e -> fst (balance api c cur w) = inl e)
  /\ (fst (balances api c w) = inr (JArr []) -> fst (balance api c cur w) = inr (JInt 0))
  /\ (fst (balances api c w) = inr (JObj []) -> fst (balance api c cur w) = inr (JInt 0))
  /\ (forall k v m, fst (balances api c w) = inr (JObj ((k, v) :: m)) ->
        fst (balance api c cur w) = inl TypeError)
  /\ (forall x l, fst (balances api c w) = inr (JArr (x :: l)) ->
        (forall m, x <> JObj m) -> fst (balance api c cur w) = inl TypeError)
  /\ (forall m l, fst (balances api c w) = inr (JArr (JObj m :: l)) ->
        Json.lookup m "currency" = None -> fst (balance api c cur w) = inl KeyError)
  /\ (forall x, fst (balances api c w) = inr x ->
        x = JNull \/ (exists b, x = JBool b) \/ (exists z, x = JInt z)
        \/ (exists f, x = JFloat f) ->
        fst (balance api c cur w) = inl TypeError).
Proof.
  intros api c cur w. rewrite balance_unfold.
  destruct (balances api c w) as [[e|bs] w1]; cbn [fst snd].
  - split; [reflexivity|]. split; [intros e' He; exact He|].
    repeat split; intros; discriminate.
  - split.
    { unfold bind at 1. pose proof (py_iter_world bs w1) as G.
      destruct (py_iter bs w1) as [[e|items] w2]; cbn [snd] in G |- *; subst; [reflexivity|].
      unfold bind. pose proof (comprehension_world cur items w1) as G.
      destruct (comprehension (balance_item cur) items w1) as [[e|bal] w3];
        cbn [snd] in G |- *; subst; [reflexivity|].
      destruct bal; reflexivity. }
    split; [intros e He; discriminate|].
    split; [intros H; injection H as ->; reflexivity|].
    split; [intros H; injection H as ->; reflexivity|].
    split.
    { intros k v m H. injection H as ->. reflexivity. }
    split.
    { intros x l H Hx. injection H as ->.
      destruct x; try reflexivity. exfalso. exact (Hx members eq_refl). }
    split.
    { intros m l H Hm. injection H as ->. unfold py_iter, bind, ret. cbn [comprehension]. unfold balance_item, bind at 1, getitem. rewrite Hm. reflexivity. }
    intros x H Hx. injection H as ->.
    destruct Hx as [->|[[b ->]|[[z ->]|[f ->]]]]; reflexivity.
Qed.

Lemma balance_edge_cases_witness :
  fst (balance demo_api demo_client "AUD"
         (demo_world 1000 200 (dquote "{'success':false}"))) = inl TypeError.
Proof.
  destruct (balance_edge_cases demo_api demo_client "AUD"
              (demo_world 1000 200 (dquote "{'success':false}")))
    as (_ & _ & _ & _ & H & _).
  exact (H "success"%string (JBool false) [] ltac:(vm_compute; reflexivity)).
Defined.

(** X14: both scripts construct the client first: when decoding the key
    raises [e], src/run.py and the import-time code of src/interface.py
    raise [e] with nothing sent; otherwise run.py sends one GET of
    [/account/balance] and interface.py one GET of
    [/account/BTC/AUD/tradingfee]. *)
Theorem scripts_construct_first :
  forall (api pub priv : string) (w : world),
  (forall e, init pub priv = inl e ->
     run_main api pub priv w = (inl e, w) /\ Interface.main api pub priv w = (inl e, w))
  /\ (forall c, init pub priv = inr c ->
     sends_get api c (run_main api pub priv) w "/account/balance"%string
     /\ sends_get api c (Interface.main api pub priv) w "/account/BTC/AUD/tradingfee"%string).
Proof.
  intros api pub priv w. split.
  - intros e He. unfold run_main, Interface.main, bind, construct. rewrite He.
    split; reflexivity.
  - intros c Hc.
    assert (E1 : run_main api pub priv w = balances api c w)
      by (unfold run_main, bind at 1, construct; rewrite Hc; reflexivity).
    assert (E2 : Interface.main api pub priv w
                 = request api c "/account/BTC/AUD/tradingfee" None w)
      by (unfold Interface.main, bind at 1, construct; rewrite Hc;
          apply old_request_none).
    split; unfold sends_get; [rewrite E1 | rewrite E2]; apply request_sends_get.
Qed.

Lemma scripts_construct_first_witness :
  sends_get demo_api demo_client (run_main demo_api "pk" "QUJD")
    (demo_world 1000 200 "[]") "/account/balance"%string.
Proof.
  destruct (scripts_construct_first demo_api "pk" "QUJD" (demo_world 1000 200 "[]"))
    as (_ & H).
  exact (proj1 (H demo_client ltac:(vm_compute; reflexivity))).
Defined.
